(** * Stripe subscription lifecycle and webhook reconciliation

    A shallow embedding of [/netlify/functions/stripe-payments.js]
    (the [exports.handler] of the payment function) together with the two
    tables of the database schema it reads and writes ([users] and
    [payments]).

    Conventions of the embedding.
    - A JavaScript value that may be [null] or [undefined] is an [option].
    - A JavaScript integer-valued number is a [Z]; the quotient
      [n / 100] of such a number, which the store keeps in a
      [DECIMAL(10,2)] column, is the rational [n / 100] in lowest terms.
    - A [TIMESTAMP] column holds [option Z]: [NULL] or milliseconds since
      the epoch, the value a JavaScript [Date] serialises.  The times are
      those the processor sends, between 1970 and the end of year 9999:
      from year 10000 on a [Date] serialises with an expanded year, a text
      the column refuses.  A statement that gives the value of a stored
      time has that range as a hypothesis.
    - The handler is an [async] function whose [await]s are sequential; it
      is a computation over the [World] (the database and the log of calls
      made to the payments processor) that either completes normally or
      throws.
    - supabase-js resolves every query to [{data, error}] and does not
      throw; the handler never looks at [error], so a rejected write is
      modelled as a write that leaves the table as it was and completes
      normally.
    - Ids are compared as strings; strings are taken to fit their
      [VARCHAR] columns and amounts their [DECIMAL(10,2)] column, so that
      the foreign key of [payments.client_id] is the one constraint a row
      of the handler can fail.
    - [console.error] and the constant CORS headers of the responses are
      left out. *)

From Stdlib Require Import ZArith QArith String List Lia.
From stdpp Require Import base option strings gmap.
Import ListNotations.

Local Open Scope Z_scope.
Local Open Scope string_scope.

(** ** The two tables *)

(** [CREATE TABLE users]: the columns the payment function touches. *)
Record User := mkUser {
  u_id : string;                              (* id UUID PRIMARY KEY *)
  u_email : string;                           (* email NOT NULL *)
  stripe_customer_id : option string;
  stripe_subscription_id : option string;
  subscription_plan : option string;
  subscription_status : option string;
  trial_ends_at : option Z;
  subscription_ends_at : option Z
}.

(** [CREATE TABLE payments]: the columns the payment function writes.  The
    generated [id] and [created_at] and the columns that stay [NULL] are
    left out; rows are kept in insertion order and equal rows are kept
    apart by their position. *)
Record Payment := mkPayment {
  client_id : option string;                  (* REFERENCES users(id) *)
  stripe_invoice_id : option string;          (* no UNIQUE constraint *)
  stripe_charge_id : option string;
  amount : Q;                                 (* DECIMAL(10,2) NOT NULL *)
  status : string;                            (* NOT NULL *)
  invoice_url : option string;
  failure_reason : option string;
  paid_at : option Z
}.

Record DB := mkDB {
  users : list User;
  payments : list Payment
}.

(** ** Objects of the payments processor *)

Record LineItem := mkLineItem {
  period_start : Z;
  period_end : Z
}.

Record PaymentError := mkPaymentError {
  message : option string
}.

Record Invoice := mkInvoice {
  inv_id : string;
  inv_customer : string;
  inv_charge : option string;
  inv_amount_paid : Z;
  inv_amount_due : Z;
  inv_hosted_invoice_url : option string;
  inv_paid_at : option Z;                     (* status_transitions.paid_at *)
  inv_lines : list LineItem;                  (* lines.data *)
  inv_metadata : gmap string string;
  inv_last_payment_error : option PaymentError
}.

Record Session := mkSession {
  ses_customer : string;
  ses_subscription : option string;
  ses_amount_total : option Z                 (* what the checkout charged *)
}.

Record Subscription := mkSubscription {
  sub_customer : string;
  sub_ended_at : option Z
}.

(** [stripeEvent.type] with the [stripeEvent.data.object] of that type;
    [OtherEvent] stands for every type the handler has no [case] for. *)
Inductive EventData :=
| CheckoutSessionCompleted (session : Session)
| InvoicePaymentSucceeded (invoice : Invoice)
| InvoicePaymentFailed (failedInvoice : Invoice)
| CustomerSubscriptionDeleted (subscription : Subscription)
| OtherEvent (type : string).

(** A verified event.  [created] is the processor's timestamp of the
    event; the handler never reads it. *)
Record StripeEvent := mkStripeEvent {
  created : Z;
  data : EventData
}.

Definition event_type (e : StripeEvent) : string :=
  match data e with
  | CheckoutSessionCompleted _ => "checkout.session.completed"
  | InvoicePaymentSucceeded _ => "invoice.payment_succeeded"
  | InvoicePaymentFailed _ => "invoice.payment_failed"
  | CustomerSubscriptionDeleted _ => "customer.subscription.deleted"
  | OtherEvent t => t
  end.

(** Calls made to the payments processor, oldest first. *)
Inductive StripeCall :=
| CustomersCreate (email user_id : string)
| CheckoutSessionsCreate (customer : string) (price success_url cancel_url : option string)
    (user_id : string)
| BillingPortalSessionsCreate (customer return_url : string).

Record World := mkWorld {
  db : DB;
  stripe_calls : list StripeCall
}.

(** ** Computations: state with exceptions *)

Inductive Completion (A : Type) :=
| Normal (a : A)
| Throw (error_message : string).
Arguments Normal {A} a.
Arguments Throw {A} error_message.

Definition M (A : Type) : Type := World -> World * Completion A.

#[global] Instance M_ret : MRet M := fun A a w => (w, Normal a).
#[global] Instance M_bind : MBind M := fun A B f m w =>
  match m w with
  | (w', Normal a) => f a w'
  | (w', Throw e) => (w', Throw e)
  end.

Definition throw {A} (e : string) : M A := fun w => (w, Throw e).

(** A call that returns or throws without touching the world. *)
Definition completion {A} (c : Completion A) : M A := fun w => (w, c).

(** [try { body } catch (error) { handler }] *)
Definition try_catch {A} (body : M A) (handler : string -> M A) : M A :=
  fun w =>
    match body w with
    | (w', Normal a) => (w', Normal a)
    | (w', Throw e) => handler e w'
    end.

Definition get_db : M DB := fun w => (w, Normal (db w)).
Definition put_db (d : DB) : M unit :=
  fun w => (mkWorld d (stripe_calls w), Normal tt).

(** ** JavaScript values *)

(** [x * 1000] for a numeric field that may be [null]: [null * 1000] is 0.
    The fields it is applied to ([status_transitions.paid_at], [ended_at])
    are present in every object the processor sends and [null] when unset,
    so that [None] is [null] here and never [undefined]. *)
Definition times_1000 (x : option Z) : Z :=
  match x with
  | Some n => n * 1000
  | None => 0
  end.

(** [new Date(ms)] as the store receives it: a time value beyond
    8.64e15 ms is an invalid date, which [JSON.stringify] writes as
    [null].  Between year 10000 and that bound the date is valid but its
    text is one the [TIMESTAMP] column refuses; the embedding is for times
    before year 10000 and beyond the bound. *)
Definition new_Date (ms : Z) : option Z :=
  if (Z.abs ms <=? 8640000000000000)%Z then Some ms else None.

(** [n / 100] for the [amount] column. *)
Definition div_100 (n : Z) : Q := Qred (inject_Z n / inject_Z 100).

(** [s.replace(pat, rep)] with a string pattern: the first occurrence.
    [rep] is inserted as it is, which is what JavaScript does for a
    replacement without ['$']; the handlers replace by ['']. *)
Fixpoint replace (pat rep s : string) : string :=
  if String.prefix pat s
  then rep ++ substring (String.length pat) (String.length s - String.length pat)%nat s
  else match s with
       | EmptyString => EmptyString
       | String c s' => String c (replace pat rep s')
       end.

(** Truthiness of a nullable string: [null], [undefined] and [''] are falsy. *)
Definition truthy (x : option string) : bool :=
  match x with
  | Some s => negb (String.eqb s "")
  | None => false
  end.

(** ** Queries *)

Definition eq_id (x : string) (u : User) : bool := String.eqb (u_id u) x.

Definition eq_stripe_customer_id (c : string) (u : User) : bool :=
  match stripe_customer_id u with
  | Some c' => String.eqb c' c
  | None => false
  end.

(** [.from('users').select(...).eq(...).single()]: [data] is the row when
    exactly one row matches and [null] otherwise. *)
Definition users_select_single (p : User -> bool) : M (option User) :=
  d ← get_db;
  match List.filter p (users d) with
  | [u] => mret (Some u)
  | _ => mret None
  end.

(** [.from('users').update(values).eq(...)]: every matching row. *)
Definition update_where (p : User -> bool) (f : User -> User) (us : list User) : list User :=
  (fun u => if p u then f u else u) <$> us.

Definition users_update (p : User -> bool) (f : User -> User) : M unit :=
  d ← get_db;
  put_db (mkDB (update_where p f (users d)) (payments d)).

(** The foreign key of [payments.client_id]: [NULL] or the id of a user. *)
Definition client_id_ok (us : list User) (c : option string) : bool :=
  match c with
  | None => true
  | Some x => existsb (eq_id x) us
  end.

(** [.from('payments').insert(row)]: the row is appended when the
    constraints of the table accept it; otherwise the query resolves with
    an error and the table is as before.  Of the constraints the foreign
    key is modelled; amounts are taken to fit [DECIMAL(10,2)] and times
    to lie before year 10000. *)
Definition payments_insert (row : Payment) : M unit :=
  d ← get_db;
  if client_id_ok (users d) (client_id row)
  then put_db (mkDB (users d) (payments d ++ [row]))
  else mret tt.

(** ** The webhook's event handlers *)

(** The values of the three [users] updates. *)
Definition checkout_completed_values (session : Session) (u : User) : User :=
  mkUser (u_id u) (u_email u) (stripe_customer_id u)
    (ses_subscription session)                (* stripe_subscription_id *)
    (Some "premium")                          (* subscription_plan *)
    (Some "active")                           (* subscription_status *)
    (trial_ends_at u) (subscription_ends_at u).

Definition payment_succeeded_values (ends_at : option Z) (u : User) : User :=
  mkUser (u_id u) (u_email u) (stripe_customer_id u) (stripe_subscription_id u)
    (subscription_plan u)
    (Some "active")                           (* subscription_status *)
    (trial_ends_at u)
    ends_at.                                  (* subscription_ends_at *)

Definition payment_failed_values (u : User) : User :=
  mkUser (u_id u) (u_email u) (stripe_customer_id u) (stripe_subscription_id u)
    (subscription_plan u)
    (Some "past_due")                         (* subscription_status *)
    (trial_ends_at u) (subscription_ends_at u).

Definition subscription_deleted_values (ends_at : option Z) (u : User) : User :=
  mkUser (u_id u) (u_email u) (stripe_customer_id u) (stripe_subscription_id u)
    (subscription_plan u)
    (Some "cancelled")                        (* subscription_status *)
    (trial_ends_at u)
    ends_at.                                  (* subscription_ends_at *)

(** The rows of the two [payments] inserts. *)
Definition succeeded_row (invoice : Invoice) : Payment :=
  {| client_id := inv_metadata invoice !! "user_id";
     stripe_invoice_id := Some (inv_id invoice);
     stripe_charge_id := inv_charge invoice;
     amount := div_100 (inv_amount_paid invoice);
     status := "succeeded";
     invoice_url := inv_hosted_invoice_url invoice;
     failure_reason := None;
     paid_at := new_Date (times_1000 (inv_paid_at invoice)) |}.

Definition failed_row (failedInvoice : Invoice) : Payment :=
  {| client_id := inv_metadata failedInvoice !! "user_id";
     stripe_invoice_id := Some (inv_id failedInvoice);
     stripe_charge_id := None;
     amount := div_100 (inv_amount_due failedInvoice);
     status := "failed";
     invoice_url := None;
     failure_reason := inv_last_payment_error failedInvoice ≫= message;
     paid_at := None |}.

(** [invoice.lines.data[0].period.end]: reading [period] of [undefined]
    throws a [TypeError] when the invoice has no line. *)
Definition first_period_end (invoice : Invoice) : M Z :=
  match inv_lines invoice with
  | line :: _ => mret (period_end line)
  | [] => throw "Cannot read properties of undefined (reading 'period')"
  end.

(** [switch (stripeEvent.type) { ... }] *)
Definition reconcile (stripeEvent : StripeEvent) : M unit :=
  match data stripeEvent with
  | CheckoutSessionCompleted session =>
      users_update (eq_stripe_customer_id (ses_customer session))
        (checkout_completed_values session)
  | InvoicePaymentSucceeded invoice =>
      payments_insert (succeeded_row invoice);;
      period_end ← first_period_end invoice;
      users_update (eq_stripe_customer_id (inv_customer invoice))
        (payment_succeeded_values (new_Date (period_end * 1000)))
  | InvoicePaymentFailed failedInvoice =>
      payments_insert (failed_row failedInvoice);;
      users_update (eq_stripe_customer_id (inv_customer failedInvoice))
        payment_failed_values
  | CustomerSubscriptionDeleted subscription =>
      users_update (eq_stripe_customer_id (sub_customer subscription))
        (subscription_deleted_values (new_Date (times_1000 (sub_ended_at subscription))))
  | OtherEvent _ => mret tt
  end.

(** ** Requests and responses *)

Record Request := mkRequest {
  httpMethod : string;
  path : string;
  headers : gmap string string;
  body : string
}.

(** [SELECT subscription_status, subscription_plan, subscription_ends_at,
    trial_ends_at]. *)
Record StatusView := mkStatusView {
  sv_subscription_status : option string;
  sv_subscription_plan : option string;
  sv_subscription_ends_at : option Z;
  sv_trial_ends_at : option Z
}.

(** What [JSON.stringify] is applied to in each [body]. *)
Inductive Body :=
| BodyEmpty                                            (* '' *)
| BodyError (error : string)                           (* { error } *)
| BodyReceived (received : bool)                       (* { received } *)
| BodyCheckout (checkoutUrl : option string) (sessionId : string)
| BodyUrl (url : option string)                        (* { url } *)
| BodyUserData (userData : option StatusView).

Record Response := mkResponse {
  statusCode : Z;
  resp_body : Body
}.

Record Claims := mkClaims {
  userId : string
}.

Record CheckoutBody := mkCheckoutBody {
  priceId : option string;
  successUrl : option string;
  cancelUrl : option string
}.

Record Env := mkEnv {
  STRIPE_WEBHOOK_SECRET : string;
  JWT_SECRET : string;
  SITE_URL : string
}.

Definition set_stripe_customer_id (customerId : string) (u : User) : User :=
  mkUser (u_id u) (u_email u) (Some customerId) (stripe_subscription_id u)
    (subscription_plan u) (subscription_status u) (trial_ends_at u)
    (subscription_ends_at u).

Definition status_view (u : User) : StatusView :=
  mkStatusView (subscription_status u) (subscription_plan u)
    (subscription_ends_at u) (trial_ends_at u).

(** A call to the payments processor: it is logged, and the processor's
    answer (a value or an exception) may depend on what it was sent
    before. *)
Definition stripe_call {A} (response : list StripeCall -> StripeCall -> Completion A)
    (c : StripeCall) : M A :=
  fun w => (mkWorld (db w) (stripe_calls w ++ [c]), response (stripe_calls w) c).

(** Property access on [data] of a [.single()] query that found no row. *)
Definition read_of_null {A} (property : string) : M A :=
  throw ("Cannot read properties of null (reading '" ++ property ++ "')").

(** ** The handler *)

Section Handler.

(** Collaborators outside the repository: the configuration of the
    process, the processor's SDK, [jsonwebtoken] and [JSON.parse].
    [constructEvent] and [jwt_verify] answer [None] where the library
    throws. *)
Variable env : Env.
Variable constructEvent : string -> option string -> string -> option StripeEvent.
Variable jwt_verify : string -> string -> option Claims.
Variable JSON_parse : string -> Completion CheckoutBody.
Variable customers_create : list StripeCall -> StripeCall -> Completion string.
Variable checkout_sessions_create :
  list StripeCall -> StripeCall -> Completion (option string * string).
Variable billingPortal_sessions_create :
  list StripeCall -> StripeCall -> Completion (option string).

(** [utils/auth.js] *)
Definition verifyToken (authHeader : option string) : option Claims :=
  match authHeader with
  | None => None
  | Some h =>
      if String.prefix "Bearer " h
      then jwt_verify (substring 7 (String.length h - 7) h) (JWT_SECRET env)
      else None
  end.

(** "Get or create Stripe customer": the block that computes
    [customerId] in the [create-checkout] route. *)
Definition get_or_create_customer (user : Claims) : M string :=
  data ← users_select_single (eq_id (userId user));
  match data with
  | None => read_of_null "stripe_customer_id"
  | Some userData =>
      if truthy (stripe_customer_id userData)
      then mret (default "" (stripe_customer_id userData))
      else
        customerId ← stripe_call customers_create
                       (CustomersCreate (u_email userData) (userId user));
        users_update (eq_id (userId user)) (set_stripe_customer_id customerId);;
        mret customerId
  end.

Definition create_checkout (event : Request) : M Response :=
  match verifyToken (headers event !! "authorization") with
  | None => mret (mkResponse 401 (BodyError "Unauthorized"))
  | Some user =>
      parsed ← completion (JSON_parse (body event));
      customerId ← get_or_create_customer user;
      session ← stripe_call checkout_sessions_create
                  (CheckoutSessionsCreate customerId (priceId parsed)
                     (successUrl parsed) (cancelUrl parsed) (userId user));
      mret (mkResponse 200 (BodyCheckout (fst session) (snd session)))
  end.

Definition webhook (event : Request) : M Response :=
  let sig := headers event !! "stripe-signature" in
  let webhookSecret := STRIPE_WEBHOOK_SECRET env in
  match constructEvent (body event) sig webhookSecret with
  | None => mret (mkResponse 400 (BodyError "Invalid signature"))
  | Some stripeEvent =>
      reconcile stripeEvent;;
      mret (mkResponse 200 (BodyReceived true))
  end.

Definition customer_portal (event : Request) : M Response :=
  match verifyToken (headers event !! "authorization") with
  | None => mret (mkResponse 401 (BodyError "Unauthorized"))
  | Some user =>
      data ← users_select_single (eq_id (userId user));
      match data with
      | None => read_of_null "stripe_customer_id"
      | Some userData =>
          if negb (truthy (stripe_customer_id userData))
          then mret (mkResponse 400 (BodyError "No subscription found"))
          else
            url ← stripe_call billingPortal_sessions_create
                    (BillingPortalSessionsCreate
                       (default "" (stripe_customer_id userData))
                       (SITE_URL env ++ "/dashboard"));
            mret (mkResponse 200 (BodyUrl url))
      end
  end.

Definition subscription_status_route (event : Request) : M Response :=
  match verifyToken (headers event !! "authorization") with
  | None => mret (mkResponse 401 (BodyError "Unauthorized"))
  | Some user =>
      data ← users_select_single (eq_id (userId user));
      mret (mkResponse 200 (BodyUserData (status_view <$> data)))
  end.

(** The body of the [try] block. *)
Definition routes (path method : string) (event : Request) : M Response :=
  if String.eqb path "create-checkout" && String.eqb method "POST"
  then create_checkout event
  else if String.eqb path "webhook" && String.eqb method "POST"
  then webhook event
  else if String.eqb path "customer-portal" && String.eqb method "POST"
  then customer_portal event
  else if String.eqb path "subscription-status" && String.eqb method "GET"
  then subscription_status_route event
  else mret (mkResponse 404 (BodyError "Not found")).

(** [exports.handler] *)
Definition handler (event : Request) : M Response :=
  if String.eqb (httpMethod event) "OPTIONS"
  then mret (mkResponse 200 BodyEmpty)
  else
    let path := replace "/.netlify/functions/stripe-payments/" "" (path event) in
    let method := httpMethod event in
    try_catch (routes path method event)
      (fun error_message => mret (mkResponse 500 (BodyError error_message))).

(** A request the handler routes to the webhook. *)
Definition is_webhook_request (event : Request) : Prop :=
  replace "/.netlify/functions/stripe-payments/" "" (path event) = "webhook"
  /\ httpMethod event = "POST".

End Handler.

(** ** Observations used in the statements *)

(** The world a computation leaves behind. *)
Definition exec {A} (m : M A) (w : World) : World := fst (m w).

Definition has_invoice_id (invoice_id : string) (p : Payment) : bool :=
  match stripe_invoice_id p with
  | Some i => String.eqb i invoice_id
  | None => false
  end.

(** The number of payment rows that carry an external invoice id. *)
Definition records_for (invoice_id : string) (ps : list Payment) : nat :=
  length (List.filter (has_invoice_id invoice_id) ps).

(** What an insert leaves in the table. *)
Definition inserted (us : list User) (ps : list Payment) (row : Payment) : list Payment :=
  if client_id_ok us (client_id row) then ps ++ [row] else ps.

(** The billing-customer id on the subject object of an event. *)
Definition event_customer (e : StripeEvent) : option string :=
  match data e with
  | CheckoutSessionCompleted session => Some (ses_customer session)
  | InvoicePaymentSucceeded invoice => Some (inv_customer invoice)
  | InvoicePaymentFailed failedInvoice => Some (inv_customer failedInvoice)
  | CustomerSubscriptionDeleted subscription => Some (sub_customer subscription)
  | OtherEvent _ => None
  end.

(** The rows the event's [users] update is filtered to. *)
Definition targets (e : StripeEvent) (u : User) : bool :=
  match event_customer e with
  | Some c => eq_stripe_customer_id c u
  | None => false
  end.

(** The account id carried in the metadata of an invoice event. *)
Definition event_metadata_user_id (e : StripeEvent) : option string :=
  match data e with
  | InvoicePaymentSucceeded invoice => inv_metadata invoice !! "user_id"
  | InvoicePaymentFailed failedInvoice => inv_metadata failedInvoice !! "user_id"
  | _ => None
  end.

(** An [invoice.payment_succeeded] event whose invoice has a line item;
    every other event qualifies. *)
Definition has_line (e : StripeEvent) : bool :=
  match data e with
  | InvoicePaymentSucceeded invoice =>
      match inv_lines invoice with
      | [] => false
      | _ :: _ => true
      end
  | _ => true
  end.

(** ** Sample data *)

Module Sample.

Definition alice : User :=
  mkUser "u1" "alice@example.com" (Some "cus_A") (Some "sub_A")
    (Some "premium") (Some "active") None (Some 2000000000000).

Definition bob : User :=
  mkUser "u2" "bob@example.com" (Some "cus_B") (Some "sub_B")
    (Some "premium") (Some "active") None (Some 2000000000000).

(** An account that never started a checkout. *)
Definition carol : User :=
  mkUser "u3" "carol@example.com" None None (Some "trial") (Some "trialing")
    None None.

Definition world : World := mkWorld (mkDB [alice; bob; carol] []) [].

(** An invoice of [customer], paid or due for 7900 cents. *)
Definition invoice (customer : string) (user_id : option string)
    (lines : list LineItem) : Invoice :=
  {| inv_id := "in_1";
     inv_customer := customer;
     inv_charge := Some "ch_1";
     inv_amount_paid := 7900;
     inv_amount_due := 7900;
     inv_hosted_invoice_url := None;
     inv_paid_at := Some 1700000000;
     inv_lines := lines;
     inv_metadata := match user_id with
                     | Some x => {[ "user_id" := x ]}
                     | None => ∅
                     end;
     inv_last_payment_error := Some (mkPaymentError (Some "card_declined")) |}.

Definition env : Env := mkEnv "whsec_test" "jwt_test" "https://example.com".

(** A stand-in for the SDK's verifier: the signature header must be
    ["v1="] followed by the secret, and the body then decodes to
    [delivered]. *)
Definition constructEvent (delivered : StripeEvent) (body : string)
    (sig : option string) (secret : string) : option StripeEvent :=
  match sig with
  | Some s => if String.eqb s ("v1=" ++ secret) then Some delivered else None
  | None => None
  end.

Definition jwt_verify (token secret : string) : option Claims :=
  if String.eqb secret "jwt_test" then Some (mkClaims token) else None.

Definition JSON_parse (body : string) : Completion CheckoutBody :=
  Normal (mkCheckoutBody (Some body) None None).

Definition customers_create (log : list StripeCall) (c : StripeCall)
    : Completion string :=
  Normal "cus_new".

Definition checkout_sessions_create (log : list StripeCall) (c : StripeCall)
    : Completion (option string * string) :=
  Normal (Some "https://checkout.example/cs_1", "cs_1").

Definition billingPortal_sessions_create (log : list StripeCall) (c : StripeCall)
    : Completion (option string) :=
  Normal (Some "https://portal.example/bps_1").

Definition handler (delivered : StripeEvent) : Request -> M Response :=
  handler env (constructEvent delivered) jwt_verify JSON_parse customers_create
    checkout_sessions_create billingPortal_sessions_create.

Definition webhook_request (sig : option string) : Request :=
  {| httpMethod := "POST";
     path := "/.netlify/functions/stripe-payments/webhook";
     headers := match sig with
                | Some s => {[ "stripe-signature" := s ]}
                | None => ∅
                end;
     body := "{}" |}.

Definition good_signature : option string := Some "v1=whsec_test".

Definition line : LineItem := mkLineItem 1697000000 1700000000.

(** An earlier billing period than the one [alice] and [bob] are in. *)
Definition stale_line : LineItem := mkLineItem 997000000 1000000000.

(** Alice's invoice is paid. *)
Definition paid : StripeEvent :=
  mkStripeEvent 1697000100 (InvoicePaymentSucceeded (invoice "cus_A" (Some "u1") [line])).

(** Alice's subscription is cancelled at time 2000000000. *)
Definition subscription : Subscription := mkSubscription "cus_A" (Some 2000000000).

Definition cancelled : StripeEvent :=
  mkStripeEvent 2000000000 (CustomerSubscriptionDeleted subscription).

(** A payment of an earlier period, created before the cancellation and
    delivered after it. *)
Definition stale_paid : StripeEvent :=
  mkStripeEvent 997000100
    (InvoicePaymentSucceeded (invoice "cus_A" (Some "u1") [stale_line])).

(** A paid invoice without line items. *)
Definition paid_no_line : StripeEvent :=
  mkStripeEvent 1697000100 (InvoicePaymentSucceeded (invoice "cus_A" (Some "u1") [])).

(** Alice's payment fails. *)
Definition failed : StripeEvent :=
  mkStripeEvent 1697000100 (InvoicePaymentFailed (invoice "cus_A" (Some "u1") [line])).

(** A failed invoice whose metadata names an account that does not exist. *)
Definition failed_unknown_user : StripeEvent :=
  mkStripeEvent 1697000100 (InvoicePaymentFailed (invoice "cus_A" (Some "u9") [line])).

(** A failed invoice whose metadata names Alice and whose billing customer
    is Bob's. *)
Definition failed_mixed : StripeEvent :=
  mkStripeEvent 1697000100 (InvoicePaymentFailed (invoice "cus_B" (Some "u1") [line])).

(** A failed invoice of a billing customer no account has. *)
Definition failed_unknown_customer : StripeEvent :=
  mkStripeEvent 1697000100 (InvoicePaymentFailed (invoice "cus_Z" None [line])).

Definition session : Session := mkSession "cus_A" (Some "sub_A2") (Some 2900).

Definition completed : StripeEvent :=
  mkStripeEvent 1697000100 (CheckoutSessionCompleted session).

Definition checkout_request (user_id : string) : Request :=
  {| httpMethod := "POST";
     path := "/.netlify/functions/stripe-payments/create-checkout";
     headers := {[ "authorization" := "Bearer " ++ user_id ]};
     body := "price_1" |}.

End Sample.

(** ** Further observations on the reconciler *)

(** The columns of [users] that no event handler writes. *)
Definition identity_columns (u : User) : string * string * option string * option Z :=
  (u_id u, u_email u, stripe_customer_id u, trial_ends_at u).

(** The values the handler of an event writes on the rows its update is
    filtered to; the handler of a paid invoice without line item throws
    before its update and writes none. *)
Definition account_values (e : StripeEvent) (u : User) : User :=
  match data e with
  | CheckoutSessionCompleted session => checkout_completed_values session u
  | InvoicePaymentSucceeded invoice =>
      match inv_lines invoice with
      | line :: _ => payment_succeeded_values (new_Date (period_end line * 1000)) u
      | [] => u
      end
  | InvoicePaymentFailed _ => payment_failed_values u
  | CustomerSubscriptionDeleted subscription =>
      subscription_deleted_values
        (new_Date (times_1000 (sub_ended_at subscription))) u
  | OtherEvent _ => u
  end.

(** The row the handler of an invoice event offers to [payments]. *)
Definition offered_row (e : StripeEvent) : option Payment :=
  match data e with
  | InvoicePaymentSucceeded invoice => Some (succeeded_row invoice)
  | InvoicePaymentFailed failedInvoice => Some (failed_row failedInvoice)
  | _ => None
  end.

(** The status codes the payment function answers with. *)
Definition known_status (code : Z) : bool :=
  (code =? 200)%Z || (code =? 400)%Z || (code =? 401)%Z || (code =? 404)%Z
  || (code =? 500)%Z.

(** A request the handler takes for [route] with [method]. *)
Definition is_request (route method : string) (event : Request) : Prop :=
  replace "/.netlify/functions/stripe-payments/" "" (path event) = route
  /\ httpMethod event = method.

(** The four tests of the [try] block. *)
Definition known_route (path method : string) : bool :=
  String.eqb path "create-checkout" && String.eqb method "POST"
  || String.eqb path "webhook" && String.eqb method "POST"
  || String.eqb path "customer-portal" && String.eqb method "POST"
  || String.eqb path "subscription-status" && String.eqb method "GET".

(** ** Revenue analytics: [groupRevenueByPeriod] *)

(** A row of [.from('payments').select('amount, created_at')].  Amounts
    come back as JavaScript numbers, which are added in floating point:
    the type of numbers and its addition are parameters. *)
Record RevenueRow (number : Type) := mkRevenueRow {
  rr_amount : number;
  rr_created_at : string
}.
Arguments mkRevenueRow {number} _ _.
Arguments rr_amount {number} _.
Arguments rr_created_at {number} _.

(** A value of the [grouped] object: [{ date, revenue, count }]. *)
Record RevenueGroup (number : Type) := mkRevenueGroup {
  rg_date : string;
  rg_revenue : number;
  rg_count : Z
}.
Arguments mkRevenueGroup {number} _ _ _.
Arguments rg_date {number} _.
Arguments rg_revenue {number} _.
Arguments rg_count {number} _.

Section Revenue.

Variable number : Type.
Variable zero : number.                           (* 0 *)
Variable plus : number -> number -> number.       (* + *)

(** [new Date(created_at).toISOString().split('T')[0]] and
    [`${date.getFullYear()}-${date.getMonth() + 1}`]: the calendar is the
    runtime's.  Both texts contain a ['-'], so that a key is neither the
    name of a property every object inherits nor an array index, and
    [Object.values] lists the groups in the order their keys were added. *)
Variable iso_date : string -> string.
Variable year_month : string -> string.

Definition revenue_key (period created_at : string) : string :=
  if String.eqb period "week" || String.eqb period "month"
  then iso_date created_at
  else year_month created_at.

(** One turn of the [forEach]: [grouped[key]] is created with revenue 0
    and count 0 when it is missing, then [revenue += amount] and
    [count += 1].  [grouped] is kept as the list of its entries in
    insertion order. *)
Fixpoint add_payment (key : string) (amount : number)
    (grouped : list (string * RevenueGroup number))
    : list (string * RevenueGroup number) :=
  match grouped with
  | [] => [(key, mkRevenueGroup key (plus zero amount) (0 + 1))]
  | (k, g) :: rest =>
      if String.eqb k key
      then (k, mkRevenueGroup (rg_date g) (plus (rg_revenue g) amount) (rg_count g + 1))
             :: rest
      else (k, g) :: add_payment key amount rest
  end.

(** [payments] is [null] when the query failed. *)
Definition groupRevenueByPeriod (payments : option (list (RevenueRow number)))
    (period : string) : list (RevenueGroup number) :=
  let grouped :=
    match payments with
    | Some ps =>
        fold_left
          (fun grouped payment =>
             add_payment (revenue_key period (rr_created_at payment))
               (rr_amount payment) grouped)
          ps []
    | None => []
    end in
  snd <$> grouped.

(** The payments of a day or month, in the order of the query. *)
Definition payments_of (period key : string) (ps : list (RevenueRow number))
    : list (RevenueRow number) :=
  List.filter (fun p => String.eqb (revenue_key period (rr_created_at p)) key) ps.

(** [0 + a1 + a2 + ...], added from the left. *)
Definition sum_left (amounts : list number) : number :=
  fold_left plus amounts zero.

End Revenue.

Arguments add_payment {number} _ _ _ _ _.
Arguments groupRevenueByPeriod {number} _ _ _ _ _ _.
Arguments payments_of {number} _ _ _ _ _.
Arguments sum_left {number} _ _ _.

(** The keys of a list, each at its first occurrence. *)
Definition first_occurrences (keys : list string) : list string :=
  fold_left
    (fun seen k => if existsb (String.eqb k) seen then seen else (seen ++ [k])%list)
    keys [].

(** [const { period = 'month' } = event.queryStringParameters || {}] *)
Definition revenue_period (queryStringParameters : option (gmap string string)) : string :=
  default "month" (queryStringParameters ≫= (fun q => q !! "period")).

(** ** The admin dashboard: who gets in, and the client counts *)

(** The decoded token as the admin dashboard reads it. *)
Record TokenPayload := mkTokenPayload {
  tp_userId : string;
  tp_role : option string
}.

(** [user && user.role === 'admin'], for a [user] that is not [null]. *)
Definition requireAdmin (user : TokenPayload) : bool :=
  match tp_role user with
  | Some role => String.eqb role "admin"
  | None => false
  end.

(** A row of [users] as the [metrics] route reads it. *)
Record ClientRow := mkClientRow {
  cl_id : string;
  cl_subscription_status : option string
}.

Definition has_status (s : string) (c : ClientRow) : bool :=
  match cl_subscription_status c with
  | Some s' => String.eqb s' s
  | None => false
  end.

(** [clients?.filter(c => c.subscription_status === 'active' ||
    c.subscription_status === 'trialing').length || 0] *)
Definition activeClients (clients : option (list ClientRow)) : Z :=
  match clients with
  | Some cs =>
      Z.of_nat (length (List.filter
                          (fun c => has_status "active" c || has_status "trialing" c) cs))
  | None => 0
  end.

(** [clients?.filter(c => c.subscription_status === 'trialing').length || 0] *)
Definition trialClients (clients : option (list ClientRow)) : Z :=
  match clients with
  | Some cs => Z.of_nat (length (List.filter (has_status "trialing") cs))
  | None => 0
  end.

(** [monthlyRecurringRevenue: activeClients * 79] *)
Definition monthlyRecurringRevenue (clients : option (list ClientRow)) : Z :=
  activeClients clients * 79.

Section AdminDashboard.

Variable env : Env.
Variable jwt_verify : string -> string -> option TokenPayload.

(** The body of the [try] block of the admin dashboard; its routes query
    tables that are outside this model. *)
Variable admin_routes : TokenPayload -> string -> string -> Request -> M Response.

(** [verifyToken] of [utils/auth.js], imported as [verifyAdminToken]. *)
Definition verifyAdminToken (authHeader : option string) : option TokenPayload :=
  match authHeader with
  | None => None
  | Some h =>
      if String.prefix "Bearer " h
      then jwt_verify (substring 7 (String.length h - 7) h) (JWT_SECRET env)
      else None
  end.

(** [exports.handler] of [admin-dashboard.js], up to its [try] block. *)
Definition admin_handler (event : Request) : M Response :=
  if String.eqb (httpMethod event) "OPTIONS"
  then mret (mkResponse 200 BodyEmpty)
  else
    match verifyAdminToken (headers event !! "authorization") with
    | None => mret (mkResponse 401 (BodyError "Admin access required"))
    | Some user =>
        if negb (requireAdmin user)
        then mret (mkResponse 401 (BodyError "Admin access required"))
        else
          let path := replace "/.netlify/functions/admin-dashboard/" "" (path event) in
          let method := httpMethod event in
          try_catch (admin_routes user path method event)
            (fun error_message => mret (mkResponse 500 (BodyError error_message)))
    end.

End AdminDashboard.

(** ** More sample data *)

Module Fixture.

Definition request (method route : string) (authorization : option string)
    : Request :=
  {| httpMethod := method;
     path := "/.netlify/functions/stripe-payments/" ++ route;
     headers := match authorization with
                | Some a => {[ "authorization" := a ]}
                | None => ∅
                end;
     body := "price_1" |}.

(** An account whose reference was cleared to the empty string. *)
Definition dave : User :=
  mkUser "u4" "dave@example.com" (Some "") None (Some "trial") (Some "trialing")
    None None.

Definition world : World :=
  mkWorld (mkDB [Sample.alice; Sample.bob; Sample.carol; dave] []) [].

(** Bob after a failed payment. *)
Definition bob_past_due : User := payment_failed_values Sample.bob.

Definition world_past_due : World :=
  mkWorld (mkDB [Sample.alice; bob_past_due; Sample.carol] []) [].

(** A processor that is down. *)
Definition unavailable {A} (log : list StripeCall) (c : StripeCall) : Completion A :=
  Throw "An error occurred with our connection to Stripe.".

(** Bob's invoice. *)
Definition failed_bob : StripeEvent :=
  mkStripeEvent 1697000200
    (InvoicePaymentFailed (Sample.invoice "cus_B" (Some "u2") [Sample.line])).

(** A paid invoice whose period ends beyond the range of [Date]. *)
Definition paid_far_future : StripeEvent :=
  mkStripeEvent 1697000100
    (InvoicePaymentSucceeded
       (Sample.invoice "cus_A" (Some "u1") [mkLineItem 1697000000 8640000000001])).

(** Revenue rows with integer amounts, so that the sample sums are exact. *)
Definition revenue_rows : list (RevenueRow Z) :=
  [mkRevenueRow 79 "2024-01-15T10:00:00"; mkRevenueRow 49 "2024-01-16T09:00:00";
   mkRevenueRow 79 "2024-01-15T18:30:00"; mkRevenueRow 149 "2024-02-01T08:00:00"].

(** Stand-ins for the two date texts, read off the timestamp: its first
    ten characters, and its year, ['-'] and the number of its month. *)
Definition iso_date (created_at : string) : string := substring 0 10 created_at.
Definition year_month (created_at : string) : string :=
  substring 0 4 created_at ++ "-" ++
  (if String.eqb (substring 5 1 created_at) "0"
   then substring 6 1 created_at
   else substring 5 2 created_at).

Definition clients : list ClientRow :=
  [mkClientRow "u1" (Some "active"); mkClientRow "u2" (Some "trialing");
   mkClientRow "u3" (Some "cancelled"); mkClientRow "u4" None].

(** A body that is not JSON. *)
Definition JSON_parse_error (body : string) : Completion CheckoutBody :=
  Throw "Unexpected token p in JSON at position 0".

(** The sample handler with other collaborators. *)
Definition handler_with (delivered : StripeEvent)
    (JSON_parse : string -> Completion CheckoutBody)
    (customers_create : list StripeCall -> StripeCall -> Completion string)
    (checkout_sessions_create :
       list StripeCall -> StripeCall -> Completion (option string * string))
    : Request -> M Response :=
  handler Sample.env (Sample.constructEvent delivered) Sample.jwt_verify
    JSON_parse customers_create checkout_sessions_create
    Sample.billingPortal_sessions_create.

(** The sample handler; the event it would verify plays no part outside
    the webhook. *)
Definition serve : Request -> M Response :=
  handler_with Sample.completed Sample.JSON_parse Sample.customers_create
    Sample.checkout_sessions_create.

Definition unhandled : StripeEvent := mkStripeEvent 1697000100 (OtherEvent "customer.created").

Definition admin_request (token : string) : Request :=
  {| httpMethod := "GET";
     path := "/.netlify/functions/admin-dashboard/metrics";
     headers := {[ "authorization" := "Bearer " ++ token ]};
     body := "" |}.

Definition jwt_verify_payload (token secret : string) : option TokenPayload :=
  if String.eqb token "admin-token"
  then Some (mkTokenPayload "u0" (Some "admin"))
  else Some (mkTokenPayload token None).

Definition admin_routes (user : TokenPayload) (path method : string)
    (event : Request) : M Response :=
  mret (mkResponse 200 (BodyUserData None)).

End Fixture.

(** ** Facts about the store *)

Section UpdateWhere.

Variable p : User -> bool.
Variable f : User -> User.

Lemma update_where_lookup (us : list User) (i : nat) :
  update_where p f us !! i = (fun u => if p u then f u else u) <$> us !! i.
Proof. unfold update_where. apply list_lookup_fmap. Qed.

Lemma update_where_hit (us : list User) (i : nat) (u : User) :
  us !! i = Some u -> p u = true -> update_where p f us !! i = Some (f u).
Proof. intros Hu Hp. rewrite update_where_lookup, Hu. simpl. now rewrite Hp. Qed.

Lemma update_where_miss (us : list User) (i : nat) (u : User) :
  us !! i = Some u -> p u = false -> update_where p f us !! i = Some u.
Proof. intros Hu Hp. rewrite update_where_lookup, Hu. simpl. now rewrite Hp. Qed.

Lemma update_where_length (us : list User) :
  length (update_where p f us) = length us.
Proof. unfold update_where. apply length_fmap. Qed.

Lemma update_where_no_match (us : list User) :
  (forall u, In u us -> p u = false) -> update_where p f us = us.
Proof.
  unfold update_where. induction us as [|u us IH]; intros Hnone; [reflexivity|].
  cbn. rewrite (Hnone u) by now left.
  f_equal. apply IH. intros u' Hin. apply Hnone. now right.
Qed.

(** An update that keeps the filter column and writes constants is
    idempotent. *)
Lemma update_where_twice (us : list User) :
  (forall u, p (f u) = p u) -> (forall u, f (f u) = f u) ->
  update_where p f (update_where p f us) = update_where p f us.
Proof.
  intros Hp Hf. induction us as [|u us IH]; [reflexivity|].
  unfold update_where in *. cbn. rewrite IH. f_equal.
  destruct (p u) eqn:E.
  - now rewrite Hp, E, Hf.
  - now rewrite E.
Qed.

(** No update of the handler writes the primary key, so the foreign key
    of [payments] reads the same before and after. *)
Lemma client_id_ok_update_where (us : list User) (c : option string) :
  (forall u, u_id (f u) = u_id u) ->
  client_id_ok (update_where p f us) c = client_id_ok us c.
Proof.
  intros Hid. destruct c as [x|]; [|reflexivity]. cbn.
  induction us as [|u us IH]; [reflexivity|].
  unfold update_where in *. cbn. rewrite IH. f_equal.
  unfold eq_id. destruct (p u); [now rewrite Hid | reflexivity].
Qed.

End UpdateWhere.

Lemma payments_insert_run (row : Payment) (w : World) :
  payments_insert row w =
  (mkWorld (mkDB (users (db w)) (inserted (users (db w)) (payments (db w)) row))
     (stripe_calls w), Normal tt).
Proof.
  destruct w as [[us ps] calls].
  unfold payments_insert, inserted, mbind, M_bind, get_db. cbn.
  destruct (client_id_ok us (client_id row)); reflexivity.
Qed.

Lemma records_for_app (x : string) (ps qs : list Payment) :
  records_for x (ps ++ qs) = (records_for x ps + records_for x qs)%nat.
Proof. unfold records_for. now rewrite List.filter_app, length_app. Qed.

(** ** What each event handler leaves behind *)

Lemma reconcile_checkout_completed (t : Z) (session : Session) (w : World) :
  reconcile (mkStripeEvent t (CheckoutSessionCompleted session)) w =
  (mkWorld
     (mkDB (update_where (eq_stripe_customer_id (ses_customer session))
              (checkout_completed_values session) (users (db w)))
        (payments (db w)))
     (stripe_calls w), Normal tt).
Proof. reflexivity. Qed.

Lemma reconcile_payment_failed (t : Z) (failedInvoice : Invoice) (w : World) :
  reconcile (mkStripeEvent t (InvoicePaymentFailed failedInvoice)) w =
  (mkWorld
     (mkDB (update_where (eq_stripe_customer_id (inv_customer failedInvoice))
              payment_failed_values (users (db w)))
        (inserted (users (db w)) (payments (db w)) (failed_row failedInvoice)))
     (stripe_calls w), Normal tt).
Proof.
  unfold reconcile. cbn [data]. unfold mbind, M_bind.
  rewrite payments_insert_run. reflexivity.
Qed.

Lemma reconcile_payment_succeeded (t : Z) (invoice : Invoice) (w : World)
    (line : LineItem) (rest : list LineItem) :
  inv_lines invoice = line :: rest ->
  reconcile (mkStripeEvent t (InvoicePaymentSucceeded invoice)) w =
  (mkWorld
     (mkDB (update_where (eq_stripe_customer_id (inv_customer invoice))
              (payment_succeeded_values (new_Date (period_end line * 1000)))
              (users (db w)))
        (inserted (users (db w)) (payments (db w)) (succeeded_row invoice)))
     (stripe_calls w), Normal tt).
Proof.
  intros Hl. unfold reconcile. cbn [data]. unfold mbind, M_bind.
  rewrite payments_insert_run. unfold first_period_end. rewrite Hl. reflexivity.
Qed.

Lemma reconcile_payment_succeeded_no_line (t : Z) (invoice : Invoice) (w : World) :
  inv_lines invoice = [] ->
  reconcile (mkStripeEvent t (InvoicePaymentSucceeded invoice)) w =
  (mkWorld
     (mkDB (users (db w))
        (inserted (users (db w)) (payments (db w)) (succeeded_row invoice)))
     (stripe_calls w),
   Throw "Cannot read properties of undefined (reading 'period')").
Proof.
  intros Hl. unfold reconcile. cbn [data]. unfold mbind, M_bind.
  rewrite payments_insert_run. unfold first_period_end. rewrite Hl. reflexivity.
Qed.

Lemma reconcile_subscription_deleted (t : Z) (subscription : Subscription) (w : World) :
  reconcile (mkStripeEvent t (CustomerSubscriptionDeleted subscription)) w =
  (mkWorld
     (mkDB (update_where (eq_stripe_customer_id (sub_customer subscription))
              (subscription_deleted_values
                 (new_Date (times_1000 (sub_ended_at subscription))))
              (users (db w)))
        (payments (db w)))
     (stripe_calls w), Normal tt).
Proof. reflexivity. Qed.

Lemma reconcile_other (t : Z) (type : string) (w : World) :
  reconcile (mkStripeEvent t (OtherEvent type)) w = (w, Normal tt).
Proof. reflexivity. Qed.


Lemma records_for_succeeded_row (invoice : Invoice) :
  records_for (inv_id invoice) [succeeded_row invoice] = 1%nat.
Proof.
  unfold records_for, has_invoice_id. cbn. now rewrite String.eqb_refl.
Qed.

Lemma records_for_inserted (x : string) (us : list User) (ps : list Payment)
    (row : Payment) :
  records_for x (inserted us ps row) =
  (records_for x ps +
   (if client_id_ok us (client_id row) then records_for x [row] else 0))%nat.
Proof.
  unfold inserted. destruct (client_id_ok us (client_id row)).
  - apply records_for_app.
  - now rewrite Nat.add_0_r.
Qed.

(** ** The reconciler: claims C1, C2, C3, C8, C10 *)

(** C1 (as amended).  Applying the reconciler twice with the identical
    [invoice.payment_succeeded] event leaves the [users] table, and with it
    every account's [subscription_ends_at], as the first application left
    it; each application whose insert the store accepts appends one
    PaymentRecord, so that two records carry the invoice id after the
    replay where the claim has one. *)
Theorem replay_payment_succeeded (t : Z) (invoice : Invoice) (w : World) :
  let e := mkStripeEvent t (InvoicePaymentSucceeded invoice) in
  let w1 := exec (reconcile e) w in
  let w2 := exec (reconcile e) w1 in
  users (db w2) = users (db w1) /\
  records_for (inv_id invoice) (payments (db w2)) =
  (records_for (inv_id invoice) (payments (db w)) +
   (if client_id_ok (users (db w)) (inv_metadata invoice !! "user_id")
    then 2 else 0))%nat.
Proof.
  intros e w1 w2. subst e w1 w2. unfold exec.
  destruct (inv_lines invoice) as [|line rest] eqn:Hl.
  - rewrite !(reconcile_payment_succeeded_no_line _ _ _ Hl). cbn [fst db users payments].
    split; [reflexivity|].
    rewrite !records_for_inserted. cbn [client_id succeeded_row].
    destruct (client_id_ok _ _); [|lia].
    rewrite records_for_succeeded_row. lia.
  - rewrite !(reconcile_payment_succeeded _ _ _ _ _ Hl). cbn [fst db users payments].
    split.
    + now apply update_where_twice.
    + rewrite !records_for_inserted. cbn [client_id succeeded_row].
      rewrite client_id_ok_update_where by reflexivity.
      destruct (client_id_ok _ _); [|lia].
      rewrite records_for_succeeded_row. lia.
Qed.

(** C2 (as amended).  Applying [customer.subscription.deleted] and then
    an [invoice.payment_succeeded] event for the same billing customer
    (with a line item) leaves the account's [subscription_status] equal to
    ['active'], whatever the timestamps of the two events: the event
    applied last decides. *)
Theorem payment_succeeded_after_cancel (t_cancel t_paid : Z)
    (subscription : Subscription) (invoice : Invoice)
    (line : LineItem) (rest : list LineItem) (w : World) (i : nat) (u : User) :
  inv_lines invoice = line :: rest ->
  inv_customer invoice = sub_customer subscription ->
  users (db w) !! i = Some u ->
  eq_stripe_customer_id (sub_customer subscription) u = true ->
  let cancelled := mkStripeEvent t_cancel (CustomerSubscriptionDeleted subscription) in
  let paid := mkStripeEvent t_paid (InvoicePaymentSucceeded invoice) in
  exists u',
    users (db (exec (reconcile paid) (exec (reconcile cancelled) w))) !! i = Some u' /\
    u_id u' = u_id u /\
    subscription_status u' = Some "active".
Proof.
  intros Hl Hc Hu Hp cancelled paid. subst cancelled paid. unfold exec.
  rewrite reconcile_subscription_deleted.
  rewrite (reconcile_payment_succeeded _ _ _ _ _ Hl). cbn. rewrite Hc.
  eexists. split.
  - eapply update_where_hit; [eapply update_where_hit; eassumption|].
    exact Hp.
  - split; reflexivity.
Qed.

(** C3 (as amended).  Applying [invoice.payment_succeeded] (with a line
    item) sets [subscription_ends_at] of every account with the invoice's
    billing customer to the end of the first line item's period, whether
    that is later or earlier than the value before. *)
Theorem payment_succeeded_sets_ends_at (t : Z) (invoice : Invoice)
    (line : LineItem) (rest : list LineItem) (w : World) (i : nat) (u : User) :
  inv_lines invoice = line :: rest ->
  users (db w) !! i = Some u ->
  eq_stripe_customer_id (inv_customer invoice) u = true ->
  exists u',
    users (db (exec (reconcile (mkStripeEvent t (InvoicePaymentSucceeded invoice))) w)) !! i
      = Some u' /\
    u_id u' = u_id u /\
    subscription_ends_at u' = new_Date (period_end line * 1000).
Proof.
  intros Hl Hu Hp. unfold exec.
  rewrite (reconcile_payment_succeeded _ _ _ _ _ Hl). cbn.
  eexists. split; [eapply update_where_hit; eassumption|].
  split; reflexivity.
Qed.


(** C10.  Applying [checkout.session.completed] sets [subscription_plan]
    of every account with the session's billing customer to the literal
    ['premium'], whatever the session bought. *)
Theorem checkout_completed_sets_premium (t : Z) (session : Session) (w : World)
    (i : nat) (u : User) :
  users (db w) !! i = Some u ->
  eq_stripe_customer_id (ses_customer session) u = true ->
  exists w' u',
    reconcile (mkStripeEvent t (CheckoutSessionCompleted session)) w = (w', Normal tt) /\
    users (db w') !! i = Some u' /\
    u_id u' = u_id u /\
    subscription_plan u' = Some "premium" /\
    subscription_status u' = Some "active" /\
    stripe_subscription_id u' = ses_subscription session.
Proof.
  intros Hu Hp.
  eexists _, (checkout_completed_values session u).
  split; [apply reconcile_checkout_completed|]. cbn.
  split; [now apply update_where_hit|].
  repeat split.
Qed.

(** ** The handler: claims C4, C5, C7, C9 *)

Lemma update_where_nobody (f : User -> User) (us : list User) :
  update_where (fun _ => false) f us = us.
Proof. unfold update_where. induction us as [|u us IH]; cbn; congruence. Qed.

Lemma filter_update_where (p : User -> bool) (f : User -> User) (us : list User) :
  (forall u, p (f u) = p u) ->
  List.filter p (update_where p f us) = f <$> List.filter p us.
Proof.
  intros Hp. unfold update_where. induction us as [|u us IH]; [reflexivity|].
  cbn. destruct (p u) eqn:E.
  - rewrite Hp, E. cbn. now rewrite IH.
  - rewrite E. exact IH.
Qed.

(** A handler that runs to completion answers by one [users] update,
    filtered to the event's billing customer. *)
Lemma reconcile_users (e : StripeEvent) (w : World) :
  has_line e = true ->
  exists (f : User -> User) (w' : World),
    reconcile e w = (w', Normal tt) /\
    users (db w') = update_where (targets e) f (users (db w)).
Proof.
  destruct e as [t [session|invoice|failedInvoice|subscription|type]]; intros Hl.
  - eexists _, _. split; [apply reconcile_checkout_completed|reflexivity].
  - unfold has_line in Hl. cbn in Hl.
    destruct (inv_lines invoice) as [|line rest] eqn:E; [discriminate|].
    eexists _, _. split; [apply (reconcile_payment_succeeded _ _ _ _ _ E)|reflexivity].
  - eexists _, _. split; [apply reconcile_payment_failed|reflexivity].
  - eexists _, _. split; [apply reconcile_subscription_deleted|reflexivity].
  - exists (fun u => u), w. split; [reflexivity|].
    unfold targets. cbn. now rewrite update_where_nobody.
Qed.

Section CustomerFacts.

Variable customers_create : list StripeCall -> StripeCall -> Completion string.

Lemma users_select_single_run (p : User -> bool) (w : World) :
  users_select_single p w =
  (w, Normal match List.filter p (users (db w)) with
             | [u] => Some u
             | _ => None
             end).
Proof.
  unfold users_select_single, mbind, M_bind, get_db.
  destruct (List.filter p (users (db w))) as [|u [|u' us]]; reflexivity.
Qed.

Lemma get_or_create_customer_existing (user : Claims) (w : World) (u : User)
    (c : string) :
  List.filter (eq_id (userId user)) (users (db w)) = [u] ->
  stripe_customer_id u = Some c ->
  c <> "" ->
  get_or_create_customer customers_create user w = (w, Normal c).
Proof.
  intros Hrow Hc Hne. unfold get_or_create_customer, mbind, M_bind at 1.
  rewrite users_select_single_run, Hrow, Hc. cbn.
  destruct (String.eqb_spec c ""); [contradiction|reflexivity].
Qed.

(** C7.  For an account that has a persisted billing-customer reference
    (a non-empty id), the get-or-create step of checkout initiation returns
    that reference and leaves the world as it was: no row is written and no
    call is made to the processor.  Consequently a second initiation
    returns the reference the first one returned or created, makes no
    further call, and the account's row holds that one reference; this
    holds in every world with the database the first initiation left, so
    also after the first initiation went on to open its checkout session.
    (The processor's customer ids are non-empty.) *)
Theorem get_or_create_customer_idempotent (user : Claims) (w : World) (u : User) :
  List.filter (eq_id (userId user)) (users (db w)) = [u] ->
  (forall log call customerId,
     customers_create log call = Normal customerId -> customerId <> "") ->
  (forall c, stripe_customer_id u = Some c -> c <> "" ->
     get_or_create_customer customers_create user w = (w, Normal c)) /\
  (forall w1 c1,
     get_or_create_customer customers_create user w = (w1, Normal c1) ->
     (forall w2, db w2 = db w1 ->
        get_or_create_customer customers_create user w2 = (w2, Normal c1)) /\
     exists u1,
       List.filter (eq_id (userId user)) (users (db w1)) = [u1] /\
       u_id u1 = u_id u /\
       stripe_customer_id u1 = Some c1).
Proof.
  intros Hrow Hids. split.
  - intros c. now apply get_or_create_customer_existing.
  - intros w1 c1 Hfirst.
    assert (Hgoal : exists u1,
              List.filter (eq_id (userId user)) (users (db w1)) = [u1] /\
              u_id u1 = u_id u /\ stripe_customer_id u1 = Some c1 /\ c1 <> "").
    { unfold get_or_create_customer, mbind, M_bind at 1 in Hfirst.
      rewrite users_select_single_run, Hrow in Hfirst.
      destruct (truthy (stripe_customer_id u)) eqn:Ht.
      - destruct (stripe_customer_id u) as [c|] eqn:Hc; [|discriminate].
        cbn in Hfirst. injection Hfirst as <- <-.
        exists u. repeat split; try assumption.
        cbn in Ht. intros ->. discriminate.
      - unfold mbind, M_bind, stripe_call in Hfirst.
        destruct (customers_create (stripe_calls w)
                    (CustomersCreate (u_email u) (userId user)))
          as [customerId|m] eqn:Hcreate; [|discriminate].
        cbn in Hfirst. injection Hfirst as <- <-. cbn.
        exists (set_stripe_customer_id customerId u).
        rewrite filter_update_where by reflexivity. rewrite Hrow.
        repeat split. eapply Hids, Hcreate. }
    destruct Hgoal as (u1 & Hrow1 & Hid & Hc1 & Hne).
    split; [|now exists u1].
    intros w2 Hdb. apply (get_or_create_customer_existing user w2 u1 c1);
      [now rewrite Hdb | assumption | assumption].
Qed.

End CustomerFacts.

Section HandlerFacts.

Variable env : Env.
Variable constructEvent : string -> option string -> string -> option StripeEvent.
Variable jwt_verify : string -> string -> option Claims.
Variable JSON_parse : string -> Completion CheckoutBody.
Variable customers_create : list StripeCall -> StripeCall -> Completion string.
Variable checkout_sessions_create :
  list StripeCall -> StripeCall -> Completion (option string * string).
Variable billingPortal_sessions_create :
  list StripeCall -> StripeCall -> Completion (option string).

Local Abbreviation handle :=
  (handler env constructEvent jwt_verify JSON_parse customers_create
     checkout_sessions_create billingPortal_sessions_create).

Local Abbreviation verified event :=
  (constructEvent (body event) (headers event !! "stripe-signature")
     (STRIPE_WEBHOOK_SECRET env)).

Lemma handler_webhook (event : Request) (w : World) :
  is_webhook_request event ->
  handle event w =
  try_catch (webhook env constructEvent event)
    (fun error_message => mret (mkResponse 500 (BodyError error_message))) w.
Proof.
  intros [Hp Hm]. unfold handler. rewrite Hm, Hp. reflexivity.
Qed.

Lemma handler_webhook_verified (event : Request) (w : World) (e : StripeEvent) :
  is_webhook_request event ->
  verified event = Some e ->
  handle event w =
  match reconcile e w with
  | (w', Normal _) => (w', Normal (mkResponse 200 (BodyReceived true)))
  | (w', Throw error_message) =>
      (w', Normal (mkResponse 500 (BodyError error_message)))
  end.
Proof.
  intros Hw He. rewrite handler_webhook by assumption.
  unfold try_catch, webhook. rewrite He. unfold mbind, M_bind.
  destruct (reconcile e w) as [w' [[]|m]]; reflexivity.
Qed.

Lemma handler_webhook_rejected (event : Request) (w : World) :
  is_webhook_request event ->
  verified event = None ->
  handle event w = (w, Normal (mkResponse 400 (BodyError "Invalid signature"))).
Proof.
  intros Hw He. rewrite handler_webhook by assumption.
  unfold try_catch, webhook. now rewrite He.
Qed.

(** C4.  A webhook request whose signature the verifier rejects (the
    header is missing, malformed, or does not match the raw body under
    the secret: [constructEvent] throws) is answered with 400 and
    [{error: 'Invalid signature'}]; the world is the one before, so no
    event handler ran and no row of [payments] or [users] changed. *)
Theorem invalid_signature_rejected (event : Request) (w : World) :
  is_webhook_request event ->
  verified event = None ->
  handle event w = (w, Normal (mkResponse 400 (BodyError "Invalid signature"))).
Proof. apply handler_webhook_rejected. Qed.

(** C9 (as amended).  A webhook request is answered with 200 and
    [{received: true}], or with 400 and the fixed [{error: 'Invalid
    signature'}], or, when the event handler throws, with 500 and
    [{error: message}] where [message] is the message of the exception. *)
Theorem webhook_responses (event : Request) (w : World) :
  is_webhook_request event ->
  (exists w', handle event w = (w', Normal (mkResponse 200 (BodyReceived true)))) \/
  handle event w = (w, Normal (mkResponse 400 (BodyError "Invalid signature"))) \/
  (exists e w' error_message,
     verified event = Some e /\
     reconcile e w = (w', Throw error_message) /\
     handle event w = (w', Normal (mkResponse 500 (BodyError error_message)))).
Proof.
  intros Hw. destruct (verified event) as [e|] eqn:He.
  - rewrite (handler_webhook_verified _ _ _ Hw He).
    destruct (reconcile e w) as [w' [[]|m]] eqn:Hr.
    + left. now exists w'.
    + right. right. now exists e, w', m.
  - right. left. now apply handler_webhook_rejected.
Qed.

(** Every request is answered: what a route throws, the [catch] turns
    into a response. *)
Lemma handler_returns (event : Request) (w : World) :
  exists w' r, handle event w = (w', Normal r).
Proof.
  unfold handler. destruct (String.eqb (httpMethod event) "OPTIONS").
  - now exists w, (mkResponse 200 BodyEmpty).
  - unfold try_catch.
    destruct (routes _ _ _ _ _ _ _ _ _ _ w) as [w' [r|m]].
    + now exists w', r.
    + now exists w', (mkResponse 500 (BodyError m)).
Qed.

(** The [create-checkout] route for an account with a reference: the
    database is not written, and the only call the processor may receive
    is the creation of the checkout session for that reference. *)
Lemma create_checkout_existing_customer (event : Request) (w : World)
    (user : Claims) (u : User) (c : string) :
  verifyToken env jwt_verify (headers event !! "authorization") = Some user ->
  List.filter (eq_id (userId user)) (users (db w)) = [u] ->
  stripe_customer_id u = Some c ->
  c <> "" ->
  let w' := exec (create_checkout env jwt_verify JSON_parse customers_create
                    checkout_sessions_create event) w in
  db w' = db w /\
  (stripe_calls w' = stripe_calls w \/
   exists parsed,
     JSON_parse (body event) = Normal parsed /\
     stripe_calls w' =
     (stripe_calls w ++ [CheckoutSessionsCreate c (priceId parsed) (successUrl parsed)
                           (cancelUrl parsed) (userId user)])%list).
Proof.
  intros Hauth Hrow Hc Hne w'. subst w'. unfold exec, create_checkout.
  rewrite Hauth. unfold completion, mbind, M_bind.
  destruct (JSON_parse (body event)) as [parsed|m] eqn:Hparse.
  - rewrite (get_or_create_customer_existing customers_create user w u c Hrow Hc Hne).
    unfold stripe_call.
    destruct (checkout_sessions_create _ _) as [session|m];
      (split; [reflexivity|]); right; now exists parsed.
  - split; [reflexivity|]. now left.
Qed.

End HandlerFacts.


(** C5 (as amended).  For a verified invoice event whose PaymentRecord the
    store accepts and whose handler runs to completion, both writes are
    applied: the PaymentRecord is appended and then the accounts with the
    invoice's billing customer are updated.  The two writes are separate
    operations of the store. *)
Theorem invoice_writes_applied (t : Z) (invoice : Invoice) (w : World) :
  client_id_ok (users (db w)) (inv_metadata invoice !! "user_id") = true ->
  (forall line rest,
     inv_lines invoice = line :: rest ->
     reconcile (mkStripeEvent t (InvoicePaymentSucceeded invoice)) w =
       (mkWorld
          (mkDB (update_where (eq_stripe_customer_id (inv_customer invoice))
                   (payment_succeeded_values (new_Date (period_end line * 1000)))
                   (users (db w)))
             (payments (db w) ++ [succeeded_row invoice]))
          (stripe_calls w), Normal tt)) /\
  reconcile (mkStripeEvent t (InvoicePaymentFailed invoice)) w =
    (mkWorld
       (mkDB (update_where (eq_stripe_customer_id (inv_customer invoice))
                payment_failed_values (users (db w)))
          (payments (db w) ++ [failed_row invoice]))
       (stripe_calls w), Normal tt).
Proof.
  intros Hfk. split.
  - intros line rest Hl. rewrite (reconcile_payment_succeeded _ _ _ _ _ Hl).
    unfold inserted. cbn [client_id succeeded_row]. now rewrite Hfk.
  - rewrite reconcile_payment_failed.
    unfold inserted. cbn [client_id failed_row]. now rewrite Hfk.
Qed.

(** ** The claims at the sample data *)

Lemma payment_succeeded_after_cancel_witness :
  exists u',
    users (db (exec (reconcile Sample.stale_paid)
                 (exec (reconcile Sample.cancelled) Sample.world))) !! 0%nat = Some u' /\
    u_id u' = "u1" /\
    subscription_status u' = Some "active".
Proof.
  apply (payment_succeeded_after_cancel 2000000000 997000100 Sample.subscription
           (Sample.invoice "cus_A" (Some "u1") [Sample.stale_line])
           Sample.stale_line [] Sample.world 0%nat Sample.alice);
    reflexivity.
Defined.

Lemma payment_succeeded_sets_ends_at_witness :
  exists u',
    users (db (exec (reconcile Sample.paid) Sample.world)) !! 0%nat = Some u' /\
    u_id u' = "u1" /\
    subscription_ends_at u' = Some 1700000000000.
Proof.
  apply (payment_succeeded_sets_ends_at 1697000100
           (Sample.invoice "cus_A" (Some "u1") [Sample.line])
           Sample.line [] Sample.world 0%nat Sample.alice);
    reflexivity.
Defined.


Lemma checkout_completed_sets_premium_witness :
  exists w' u',
    reconcile Sample.completed Sample.world = (w', Normal tt) /\
    users (db w') !! 0%nat = Some u' /\
    u_id u' = "u1" /\
    subscription_plan u' = Some "premium" /\
    subscription_status u' = Some "active" /\
    stripe_subscription_id u' = Some "sub_A2".
Proof.
  apply (checkout_completed_sets_premium 1697000100 Sample.session Sample.world
           0%nat Sample.alice);
    reflexivity.
Defined.

Lemma invoice_writes_applied_witness :
  exists us us',
    reconcile Sample.paid Sample.world =
      (mkWorld (mkDB us [succeeded_row (Sample.invoice "cus_A" (Some "u1") [Sample.line])])
         [], Normal tt) /\
    reconcile Sample.failed Sample.world =
      (mkWorld (mkDB us' [failed_row (Sample.invoice "cus_A" (Some "u1") [Sample.line])])
         [], Normal tt).
Proof.
  destruct (invoice_writes_applied 1697000100
              (Sample.invoice "cus_A" (Some "u1") [Sample.line]) Sample.world)
    as [Hpaid Hfailed]; [vm_compute; reflexivity|].
  eexists _, _. split.
  - exact (Hpaid Sample.line [] eq_refl).
  - exact Hfailed.
Defined.

Lemma sample_webhook_request (sig : option string) :
  is_webhook_request (Sample.webhook_request sig).
Proof. split; reflexivity. Qed.

Lemma invalid_signature_rejected_witness :
  Sample.handler Sample.failed (Sample.webhook_request None) Sample.world =
    (Sample.world, Normal (mkResponse 400 (BodyError "Invalid signature"))) /\
  Sample.handler Sample.failed (Sample.webhook_request (Some "t=1,v1=00"))
    Sample.world =
    (Sample.world, Normal (mkResponse 400 (BodyError "Invalid signature"))).
Proof.
  split.
  - apply (invalid_signature_rejected Sample.env
             (Sample.constructEvent Sample.failed) Sample.jwt_verify
             Sample.JSON_parse Sample.customers_create
             Sample.checkout_sessions_create Sample.billingPortal_sessions_create
             (Sample.webhook_request None) Sample.world);
      [split; reflexivity | vm_compute; reflexivity].
  - apply (invalid_signature_rejected Sample.env
             (Sample.constructEvent Sample.failed) Sample.jwt_verify
             Sample.JSON_parse Sample.customers_create
             Sample.checkout_sessions_create Sample.billingPortal_sessions_create
             (Sample.webhook_request (Some "t=1,v1=00")) Sample.world);
      [split; reflexivity | vm_compute; reflexivity].
Defined.

Lemma webhook_responses_witness :
  (exists w',
     Sample.handler Sample.failed (Sample.webhook_request Sample.good_signature)
       Sample.world = (w', Normal (mkResponse 200 (BodyReceived true)))) \/
  Sample.handler Sample.failed (Sample.webhook_request Sample.good_signature)
    Sample.world =
    (Sample.world, Normal (mkResponse 400 (BodyError "Invalid signature"))) \/
  (exists e w' error_message,
     Sample.constructEvent Sample.failed "{}" Sample.good_signature "whsec_test"
       = Some e /\
     reconcile e Sample.world = (w', Throw error_message) /\
     Sample.handler Sample.failed (Sample.webhook_request Sample.good_signature)
       Sample.world = (w', Normal (mkResponse 500 (BodyError error_message)))).
Proof.
  apply (webhook_responses Sample.env (Sample.constructEvent Sample.failed)
           Sample.jwt_verify Sample.JSON_parse Sample.customers_create
           Sample.checkout_sessions_create Sample.billingPortal_sessions_create
           (Sample.webhook_request Sample.good_signature) Sample.world).
  split; reflexivity.
Defined.

Lemma get_or_create_customer_idempotent_witness :
  (forall c, Some "cus_A" = Some c -> c <> "" ->
     get_or_create_customer Sample.customers_create (mkClaims "u1") Sample.world
       = (Sample.world, Normal c)) /\
  (forall w1 c1,
     get_or_create_customer Sample.customers_create (mkClaims "u1") Sample.world
       = (w1, Normal c1) ->
     (forall w2, db w2 = db w1 ->
        get_or_create_customer Sample.customers_create (mkClaims "u1") w2
          = (w2, Normal c1)) /\
     exists u1,
       List.filter (eq_id "u1") (users (db w1)) = [u1] /\
       u_id u1 = "u1" /\
       stripe_customer_id u1 = Some c1).
Proof.
  apply (get_or_create_customer_idempotent Sample.customers_create
           (mkClaims "u1") Sample.world Sample.alice).
  - reflexivity.
  - intros log call customerId Hcreate. injection Hcreate as <-. discriminate.
Defined.

(** The same step for an account without a reference: the first
    initiation creates and persists one, the second finds it. *)
Example get_or_create_customer_twice :
  let first := get_or_create_customer Sample.customers_create (mkClaims "u3") Sample.world in
  let second := get_or_create_customer Sample.customers_create (mkClaims "u3") (fst first) in
  snd first = Normal "cus_new" /\
  stripe_calls (fst first) = [CustomersCreate "carol@example.com" "u3"] /\
  second = (fst first, Normal "cus_new") /\
  stripe_customer_id <$> users (db (fst second)) !! 2%nat = Some (Some "cus_new").
Proof. vm_compute. repeat split. Qed.

(** Two [create-checkout] requests of that account: one customer is
    created, and both checkout sessions are opened for it. *)
Example create_checkout_twice :
  let request := Sample.checkout_request "u3" in
  let first := Sample.handler Sample.completed request Sample.world in
  let second := Sample.handler Sample.completed request (fst first) in
  snd first =
    Normal (mkResponse 200 (BodyCheckout (Some "https://checkout.example/cs_1") "cs_1")) /\
  snd second = snd first /\
  stripe_calls (fst second) =
    [CustomersCreate "carol@example.com" "u3";
     CheckoutSessionsCreate "cus_new" (Some "price_1") None None "u3";
     CheckoutSessionsCreate "cus_new" (Some "price_1") None None "u3"] /\
  stripe_customer_id <$> users (db (fst second)) !! 2%nat = Some (Some "cus_new").
Proof. vm_compute. repeat split. Qed.

(** ** Where the code departs from the claims *)

(** C1 at the sample data: the replay leaves two PaymentRecords with the
    invoice id, not one. *)
Lemma replay_inserts_second_record :
  let once := exec (reconcile Sample.paid) Sample.world in
  let twice := exec (reconcile Sample.paid) once in
  records_for "in_1" (payments (db once)) = 1%nat /\
  records_for "in_1" (payments (db twice)) = 2%nat /\
  records_for "in_1" (payments (db twice)) <> 1%nat.
Proof. vm_compute. repeat split. discriminate. Qed.

(** C2 at the sample data: a payment created before the cancellation and
    applied after it makes the cancelled account ['active'] again. *)
Lemma stale_payment_uncancels :
  created Sample.stale_paid < created Sample.cancelled /\
  let cancelled := exec (reconcile Sample.cancelled) Sample.world in
  let after := exec (reconcile Sample.stale_paid) cancelled in
  subscription_status <$> users (db cancelled) !! 0%nat = Some (Some "cancelled") /\
  subscription_status <$> users (db after) !! 0%nat = Some (Some "active") /\
  subscription_status <$> users (db after) !! 0%nat <> Some (Some "cancelled").
Proof. vm_compute. repeat split; discriminate. Qed.

(** C3 at the sample data: an invoice of an earlier period moves
    [subscription_ends_at] from 2000000000000 back to 1000000000000. *)
Lemma ends_at_moves_backward :
  exists before after,
    subscription_ends_at <$> users (db Sample.world) !! 0%nat = Some (Some before) /\
    subscription_ends_at <$>
      users (db (exec (reconcile Sample.stale_paid) Sample.world)) !! 0%nat
      = Some (Some after) /\
    after < before.
Proof. exists 2000000000000, 1000000000000. vm_compute. repeat split. Qed.

(** C5 at the sample data: the store rejects the PaymentRecord (its
    [client_id] names no user), the handler goes on, and the account is
    ['past_due'] without a PaymentRecord. *)
Lemma account_updated_without_record :
  exists w',
    Sample.handler Sample.failed_unknown_user
      (Sample.webhook_request Sample.good_signature) Sample.world =
      (w', Normal (mkResponse 200 (BodyReceived true))) /\
    payments (db w') = payments (db Sample.world) /\
    subscription_status <$> users (db Sample.world) !! 0%nat = Some (Some "active") /\
    subscription_status <$> users (db w') !! 0%nat = Some (Some "past_due").
Proof. eexists. vm_compute. repeat split. Qed.

(** The other half: the PaymentRecord is inserted, the handler then
    throws, and the account is not updated. *)
Lemma record_inserted_without_account_update :
  exists w' row,
    Sample.handler Sample.paid_no_line
      (Sample.webhook_request Sample.good_signature) Sample.world =
      (w', Normal (mkResponse 500
         (BodyError "Cannot read properties of undefined (reading 'period')"))) /\
    payments (db w') = [row] /\
    status row = "succeeded" /\
    users (db w') = users (db Sample.world).
Proof. eexists _, _. vm_compute. repeat split. Qed.

(** C6 at the sample data: the event's metadata names Alice, its billing
    customer is Bob's; Bob's row is updated and Alice's is not. *)
Lemma metadata_account_not_preferred :
  event_metadata_user_id Sample.failed_mixed = Some (u_id Sample.alice) /\
  event_customer Sample.failed_mixed = stripe_customer_id Sample.bob /\
  exists w',
    Sample.handler Sample.failed_mixed
      (Sample.webhook_request Sample.good_signature) Sample.world =
      (w', Normal (mkResponse 200 (BodyReceived true))) /\
    users (db w') !! 0%nat = Some Sample.alice /\
    subscription_status <$> users (db w') !! 1%nat = Some (Some "past_due").
Proof. vm_compute. repeat split. eexists. repeat split. Qed.


(** C9 at the sample data: the body of the response carries the message
    of the exception. *)
Lemma exception_message_in_webhook_response :
  is_webhook_request (Sample.webhook_request Sample.good_signature) /\
  exists w' r,
    Sample.handler Sample.paid_no_line
      (Sample.webhook_request Sample.good_signature) Sample.world = (w', Normal r) /\
    statusCode r = 500 /\
    resp_body r = BodyError "Cannot read properties of undefined (reading 'period')" /\
    resp_body r <> BodyReceived true /\
    resp_body r <> BodyError "Invalid signature".
Proof.
  split; [apply sample_webhook_request|].
  eexists _, _. vm_compute. repeat split; discriminate.
Qed.

(** ** The reconciler as a whole *)

Lemma update_where_fixed (p : User -> bool) (f : User -> User) (us : list User) :
  (forall u, f u = u) -> update_where p f us = us.
Proof.
  intros Hf. unfold update_where. induction us as [|u us IH]; [reflexivity|].
  cbn. rewrite IH, Hf. now destruct (p u).
Qed.

Lemma update_where_comm (p q : User -> bool) (f g : User -> User) (us : list User) :
  (forall u, p (g u) = p u) -> (forall u, q (f u) = q u) ->
  (forall u, p u = true -> q u = true -> False) ->
  update_where q g (update_where p f us) = update_where p f (update_where q g us).
Proof.
  intros Hpg Hqf Hdisjoint. unfold update_where.
  induction us as [|u us IH]; [reflexivity|].
  cbn. rewrite IH. f_equal.
  destruct (p u) eqn:Ep, (q u) eqn:Eq;
    [destruct (Hdisjoint u Ep Eq) | | | ];
    cbn; rewrite ?Hqf, ?Hpg, ?Ep, ?Eq; cbn; now rewrite ?Ep, ?Eq.
Qed.

Lemma update_where_eq_id_row (p : User -> bool) (f : User -> User) (x : string)
    (us : list User) (u : User) :
  (forall u, u_id (f u) = u_id u) ->
  List.filter (eq_id x) us = [u] ->
  List.filter (eq_id x) (update_where p f us) = [if p u then f u else u].
Proof.
  intros Hid. unfold update_where. revert u.
  assert (Hgen : List.filter (eq_id x) ((fun u => if p u then f u else u) <$> us) =
                 (fun u => if p u then f u else u) <$> List.filter (eq_id x) us).
  { induction us as [|v us IH]; [reflexivity|]. cbn.
    assert (Hv : eq_id x (if p v then f v else v) = eq_id x v).
    { unfold eq_id. destruct (p v); [now rewrite Hid|reflexivity]. }
    rewrite Hv. destruct (eq_id x v); cbn; now rewrite IH. }
  intros u Hrow. now rewrite Hgen, Hrow.
Qed.

Lemma account_values_identity (e : StripeEvent) (u : User) :
  identity_columns (account_values e u) = identity_columns u.
Proof.
  destruct e as [t [session|invoice|failedInvoice|subscription|type]];
    unfold account_values; cbn; try reflexivity.
  now destruct (inv_lines invoice).
Qed.

Lemma targets_account_values (e e' : StripeEvent) (u : User) :
  targets e (account_values e' u) = targets e u.
Proof.
  unfold targets. destruct (event_customer e) as [c|]; [|reflexivity].
  unfold eq_stripe_customer_id.
  pose proof (account_values_identity e' u) as H. unfold identity_columns in H.
  now injection H as _ _ -> _.
Qed.

(** The world every event handler leaves behind, whether it returns or
    throws. *)
Lemma reconcile_exec (e : StripeEvent) (w : World) :
  exec (reconcile e) w =
  mkWorld
    (mkDB (update_where (targets e) (account_values e) (users (db w)))
       match offered_row e with
       | Some row => inserted (users (db w)) (payments (db w)) row
       | None => payments (db w)
       end)
    (stripe_calls w).
Proof.
  unfold exec.
  destruct e as [t [session|invoice|failedInvoice|subscription|type]].
  - now rewrite reconcile_checkout_completed.
  - destruct (inv_lines invoice) as [|line rest] eqn:Hl.
    + rewrite (reconcile_payment_succeeded_no_line _ _ _ Hl). cbn [fst].
      rewrite update_where_fixed; [reflexivity|].
      intros u. unfold account_values. cbn. now rewrite Hl.
    + rewrite (reconcile_payment_succeeded _ _ _ _ _ Hl). cbn [fst].
      unfold account_values, targets. cbn. now rewrite Hl.
  - now rewrite reconcile_payment_failed.
  - now rewrite reconcile_subscription_deleted.
  - rewrite reconcile_other. cbn [fst offered_row data].
    rewrite update_where_fixed by reflexivity. now destruct w as [[us ps] calls].
Qed.

Lemma reconcile_result (e : StripeEvent) (w : World) :
  snd (reconcile e w) =
  if has_line e then Normal tt
  else Throw "Cannot read properties of undefined (reading 'period')".
Proof.
  destruct e as [t [session|invoice|failedInvoice|subscription|type]];
    try reflexivity.
  - unfold has_line. cbn [data].
    destruct (inv_lines invoice) as [|line rest] eqn:Hl.
    + now rewrite (reconcile_payment_succeeded_no_line _ _ _ Hl).
    + now rewrite (reconcile_payment_succeeded _ _ _ _ _ Hl).
  - now rewrite reconcile_payment_failed.
Qed.

(** X1.  No event handler inserts, deletes or reorders accounts, and none
    writes an account's id, email, billing-customer reference or trial end:
    these columns read the same after every event, also one whose handler
    throws. *)
Theorem reconcile_keeps_identity (e : StripeEvent) (w : World) :
  identity_columns <$> users (db (exec (reconcile e) w)) =
  identity_columns <$> users (db w).
Proof.
  rewrite reconcile_exec. cbn [db users]. unfold update_where.
  rewrite <- list_fmap_compose. apply list_fmap_ext.
  intros i u _. cbn. destruct (targets e u); [|reflexivity].
  apply account_values_identity.
Qed.

(** X2.  The ledger is append-only: an event handler leaves every
    PaymentRecord it found in place and in order, and appends at most one
    row, the row of its invoice if the store accepts it; the handlers of
    the other events append none. *)
Theorem ledger_append_only (e : StripeEvent) (w : World) :
  payments (db (exec (reconcile e) w)) =
  (payments (db w) ++
   match offered_row e with
   | Some row => if client_id_ok (users (db w)) (client_id row) then [row] else []
   | None => []
   end)%list.
Proof.
  rewrite reconcile_exec. cbn [db payments]. unfold inserted.
  destruct (offered_row e) as [row|]; [|now rewrite app_nil_r].
  destruct (client_id_ok _ _); [reflexivity|now rewrite app_nil_r].
Qed.

(** X3.  Applying [customer.subscription.deleted] sets the status of
    every account with the subscription's billing customer to
    ['cancelled'] and its [subscription_ends_at] to the reported end,
    [ended_at] in milliseconds ([ended_at] being a time between 1970 and
    the end of year 9999).  The account keeps its subscription id and its
    plan, and no PaymentRecord is touched. *)
Theorem subscription_deleted_applied (t : Z) (subscription : Subscription)
    (ended_at : Z) (w : World) (i : nat) (u : User) :
  users (db w) !! i = Some u ->
  eq_stripe_customer_id (sub_customer subscription) u = true ->
  sub_ended_at subscription = Some ended_at ->
  0 <= ended_at < 253402300800 ->
  exists w' u',
    reconcile (mkStripeEvent t (CustomerSubscriptionDeleted subscription)) w
      = (w', Normal tt) /\
    payments (db w') = payments (db w) /\
    users (db w') !! i = Some u' /\
    u_id u' = u_id u /\
    subscription_status u' = Some "cancelled" /\
    subscription_ends_at u' = Some (ended_at * 1000) /\
    stripe_subscription_id u' = stripe_subscription_id u /\
    subscription_plan u' = subscription_plan u.
Proof.
  intros Hu Hp Hended Hrange.
  eexists _, _. split; [apply reconcile_subscription_deleted|].
  cbn [db users payments].
  split; [reflexivity|].
  split; [eapply update_where_hit; eassumption|]. cbn.
  repeat split.
  rewrite Hended. unfold new_Date, times_1000.
  destruct (Z.leb_spec (Z.abs (ended_at * 1000)) 8640000000000000);
    [reflexivity|lia].
Qed.

(** X4.  Replaying [checkout.session.completed] or
    [customer.subscription.deleted] changes nothing: the second application
    leaves the world exactly as the first one left it. *)
Theorem replay_status_event (t : Z) (session : Session) (subscription : Subscription)
    (w : World) :
  let completed := mkStripeEvent t (CheckoutSessionCompleted session) in
  let cancelled := mkStripeEvent t (CustomerSubscriptionDeleted subscription) in
  exec (reconcile completed) (exec (reconcile completed) w)
    = exec (reconcile completed) w /\
  exec (reconcile cancelled) (exec (reconcile cancelled) w)
    = exec (reconcile cancelled) w.
Proof.
  cbn zeta. unfold exec.
  rewrite !reconcile_checkout_completed, !reconcile_subscription_deleted.
  cbn [fst db users payments stripe_calls].
  split; f_equal; f_equal; now apply update_where_twice.
Qed.

(** X5.  Events of different billing customers commute on the accounts:
    in whichever order two such events are applied, the [users] table is
    the same. *)
Theorem different_customers_commute (e1 e2 : StripeEvent) (w : World) :
  (forall c, event_customer e1 = Some c -> event_customer e2 <> Some c) ->
  users (db (exec (reconcile e2) (exec (reconcile e1) w))) =
  users (db (exec (reconcile e1) (exec (reconcile e2) w))).
Proof.
  intros Hdiff. rewrite !reconcile_exec. cbn [db users].
  apply update_where_comm.
  - intros u. apply targets_account_values.
  - intros u. apply targets_account_values.
  - intros u H1 H2. unfold targets in H1, H2.
    destruct (event_customer e1) as [c1|]; [|discriminate].
    destruct (event_customer e2) as [c2|]; [|discriminate].
    unfold eq_stripe_customer_id in H1, H2.
    destruct (stripe_customer_id u) as [c|]; [|discriminate].
    apply String.eqb_eq in H1, H2. subst.
    now apply (Hdiff c2).
Qed.

(** X6.  A paid invoice sets [subscription_ends_at] to the period end of
    its first line item in milliseconds when that is a time between 1970
    and the end of year 9999, and to [NULL] when it is more than 8.64e12
    seconds from the epoch, a time no [Date] holds; the status is
    ['active'] in both cases. *)
Theorem payment_succeeded_ends_at_range (t : Z) (invoice : Invoice)
    (line : LineItem) (rest : list LineItem) (w : World) (i : nat) (u : User) :
  inv_lines invoice = line :: rest ->
  users (db w) !! i = Some u ->
  eq_stripe_customer_id (inv_customer invoice) u = true ->
  0 <= period_end line < 253402300800 \/ 8640000000000 < Z.abs (period_end line) ->
  exists u',
    users (db (exec (reconcile (mkStripeEvent t (InvoicePaymentSucceeded invoice))) w)) !! i
      = Some u' /\
    subscription_status u' = Some "active" /\
    subscription_ends_at u' =
      if (period_end line <? 253402300800)%Z && (0 <=? period_end line)%Z
      then Some (period_end line * 1000)
      else None.
Proof.
  intros Hl Hu Hp Hrange. unfold exec.
  rewrite (reconcile_payment_succeeded _ _ _ _ _ Hl). cbn [fst db users].
  eexists. split; [eapply update_where_hit; eassumption|].
  split; [reflexivity|]. cbn. unfold new_Date.
  destruct (Z.ltb_spec (period_end line) 253402300800),
    (Z.leb_spec 0 (period_end line)),
    (Z.leb_spec (Z.abs (period_end line * 1000)) 8640000000000000);
    cbn; try reflexivity; lia.
Qed.

(** ** Strings: the route of a request and the bearer token *)

Lemma replace_unfold (pat rep s : string) :
  replace pat rep s =
  if String.prefix pat s
  then rep ++ substring (String.length pat) (String.length s - String.length pat)%nat s
  else match s with
       | EmptyString => EmptyString
       | String c s' => String c (replace pat rep s')
       end.
Proof. destruct s; reflexivity. Qed.

Lemma substring_all (s : string) : substring 0 (String.length s) s = s.
Proof. induction s as [|c s IH]; [reflexivity|]. cbn. now rewrite IH. Qed.

Lemma prefix_app (p s : string) : String.prefix p (p ++ s) = true.
Proof.
  induction p as [|c p IH]; [now destruct s|].
  change (String c p ++ s) with (String c (p ++ s)).
  cbn [String.prefix]. destruct (Ascii.ascii_dec c c); [exact IH|contradiction].
Qed.
Lemma substring_after_prefix (p s : string) :
  substring (String.length p) (String.length (p ++ s) - String.length p)%nat (p ++ s) = s.
Proof.
  induction p as [|c p IH].
  - change ("" ++ s) with s. cbn [String.length]. rewrite Nat.sub_0_r. apply substring_all.
  - change (String c p ++ s) with (String c (p ++ s)). cbn [String.length Nat.sub substring]. exact IH.
Qed.
Lemma prefix_split (p h : string) :
  String.prefix p h = true ->
  h = p ++ substring (String.length p) (String.length h - String.length p)%nat h.
Proof.
  revert h. induction p as [|c p IH]; intros h Hp.
  - change ("" ++ ?x) with x. cbn [String.length]. rewrite Nat.sub_0_r. now rewrite substring_all.
  - destruct h as [|c' h]; [discriminate|]. cbn [String.prefix] in Hp.
    destruct (Ascii.ascii_dec c c') as [->|]; [|discriminate].
    cbn [String.length Nat.sub substring].
    change (String c' p ++ ?x) with (String c' (p ++ x)). f_equal. now apply IH.
Qed.

Lemma replace_prefix_route (mount route : string) :
  replace mount "" (mount ++ route) = route.
Proof.
  rewrite replace_unfold, prefix_app. now rewrite substring_after_prefix.
Qed.

Section HandlerRoutes.

Variable env : Env.
Variable constructEvent : string -> option string -> string -> option StripeEvent.
Variable jwt_verify : string -> string -> option Claims.
Variable JSON_parse : string -> Completion CheckoutBody.
Variable customers_create : list StripeCall -> StripeCall -> Completion string.
Variable checkout_sessions_create :
  list StripeCall -> StripeCall -> Completion (option string * string).
Variable billingPortal_sessions_create :
  list StripeCall -> StripeCall -> Completion (option string).

Local Abbreviation handle :=
  (handler env constructEvent jwt_verify JSON_parse customers_create
     checkout_sessions_create billingPortal_sessions_create).

Local Abbreviation authenticated event :=
  (verifyToken env jwt_verify (headers event !! "authorization")).

Local Abbreviation caught m :=
  (try_catch m (fun error_message => mret (mkResponse 500 (BodyError error_message)))).

(** X8.  [verifyToken] accepts a header exactly when it is ['Bearer ']
    followed by a token that [jwt.verify] accepts under the secret, and
    answers what [jwt.verify] decoded; a missing header, another scheme or
    another spelling of [Bearer] is refused. *)
Theorem verifyToken_accepts (authHeader : option string) (user : Claims) :
  verifyToken env jwt_verify authHeader = Some user <->
  exists token,
    authHeader = Some ("Bearer " ++ token) /\
    jwt_verify token (JWT_SECRET env) = Some user.
Proof.
  unfold verifyToken. split.
  - destruct authHeader as [h|]; [|discriminate].
    destruct (String.prefix "Bearer " h) eqn:Hp; [|discriminate].
    intros Hv. eexists. split; [|exact Hv].
    f_equal. now apply (prefix_split "Bearer " h).
  - intros (token & -> & Hv).
    rewrite prefix_app.
    change 7%nat with (String.length "Bearer ").
    now rewrite substring_after_prefix.
Qed.

Lemma handler_route (route method : string) (event : Request) (w : World) :
  is_request route method event ->
  String.eqb method "OPTIONS" = false ->
  handle event w =
  caught (routes env constructEvent jwt_verify JSON_parse customers_create
            checkout_sessions_create billingPortal_sessions_create
            route method event) w.
Proof.
  intros [Hp Hm] Ho. unfold handler. now rewrite Hm, Hp, Ho.
Qed.

(** X7.  The handler takes for the route of a request what follows the
    mount point of the function at the front of its path, also when the
    mount point occurs in it again: a request for [mount ++ route] that is
    no preflight is served by the route tests on [route] and its method. *)
Theorem route_after_mount (route : string) (event : Request) (w : World) :
  path event = "/.netlify/functions/stripe-payments/" ++ route ->
  String.eqb (httpMethod event) "OPTIONS" = false ->
  handle event w =
  caught (routes env constructEvent jwt_verify JSON_parse customers_create
            checkout_sessions_create billingPortal_sessions_create
            route (httpMethod event) event) w.
Proof.
  intros Hpath Ho. apply handler_route; [|assumption].
  split; [|reflexivity]. rewrite Hpath. apply replace_prefix_route.
Qed.

Lemma handler_create_checkout (event : Request) (w : World) :
  is_request "create-checkout" "POST" event ->
  handle event w =
  caught (create_checkout env jwt_verify JSON_parse customers_create
            checkout_sessions_create event) w.
Proof. intros H. now rewrite (handler_route _ _ _ _ H). Qed.

Lemma handler_customer_portal (event : Request) (w : World) :
  is_request "customer-portal" "POST" event ->
  handle event w =
  caught (customer_portal env jwt_verify billingPortal_sessions_create event) w.
Proof. intros H. now rewrite (handler_route _ _ _ _ H). Qed.

Lemma handler_subscription_status (event : Request) (w : World) :
  is_request "subscription-status" "GET" event ->
  handle event w = caught (subscription_status_route env jwt_verify event) w.
Proof. intros H. now rewrite (handler_route _ _ _ _ H). Qed.

(** X9.  The three routes of an account holder answer a request without
    an accepted bearer token with 401 and [{error: 'Unauthorized'}]; nothing
    is read, written or sent to the processor. *)
Theorem unauthenticated_rejected (event : Request) (w : World) :
  is_request "create-checkout" "POST" event \/
  is_request "customer-portal" "POST" event \/
  is_request "subscription-status" "GET" event ->
  authenticated event = None ->
  handle event w = (w, Normal (mkResponse 401 (BodyError "Unauthorized"))).
Proof.
  intros [H|[H|H]] Hauth.
  - rewrite (handler_create_checkout _ _ H).
    unfold try_catch, create_checkout. now rewrite Hauth.
  - rewrite (handler_customer_portal _ _ H).
    unfold try_catch, customer_portal. now rewrite Hauth.
  - rewrite (handler_subscription_status _ _ H).
    unfold try_catch, subscription_status_route. now rewrite Hauth.
Qed.

(** X10.  A request for anything but the four routes under their methods
    (the webhook with [GET], say) is answered with 404 and [{error: 'Not
    found'}], and the world is as before. *)
Theorem unknown_route_not_found (route method : string) (event : Request) (w : World) :
  is_request route method event ->
  String.eqb method "OPTIONS" = false ->
  known_route route method = false ->
  handle event w = (w, Normal (mkResponse 404 (BodyError "Not found"))).
Proof.
  intros H Ho Hk. rewrite (handler_route _ _ _ _ H Ho).
  unfold known_route in Hk. unfold try_catch, routes.
  destruct (String.eqb route "create-checkout" && String.eqb method "POST");
    [discriminate|].
  destruct (String.eqb route "webhook" && String.eqb method "POST");
    [discriminate|].
  destruct (String.eqb route "customer-portal" && String.eqb method "POST");
    [discriminate|].
  destruct (String.eqb route "subscription-status" && String.eqb method "GET");
    [discriminate|].
  reflexivity.
Qed.

(** X11.  The billing portal is refused to an account without a
    billing-customer reference ([NULL] or the empty string): 400 with
    [{error: 'No subscription found'}], and no call to the processor. *)
Theorem customer_portal_without_customer (event : Request) (w : World)
    (user : Claims) (u : User) :
  is_request "customer-portal" "POST" event ->
  authenticated event = Some user ->
  List.filter (eq_id (userId user)) (users (db w)) = [u] ->
  truthy (stripe_customer_id u) = false ->
  handle event w = (w, Normal (mkResponse 400 (BodyError "No subscription found"))).
Proof.
  intros H Hauth Hrow Hc. rewrite (handler_customer_portal _ _ H).
  unfold try_catch, customer_portal. rewrite Hauth.
  unfold mbind, M_bind. rewrite users_select_single_run, Hrow, Hc. reflexivity.
Qed.

(** X12.  For an account with a billing-customer reference the portal
    route sends the processor one request, a portal session for that
    customer returning to [SITE_URL + '/dashboard'], and writes nothing;
    it answers 200 with the session's url, or 500 with the processor's
    message when the processor throws. *)
Theorem customer_portal_with_customer (event : Request) (w : World)
    (user : Claims) (u : User) (c : string) :
  is_request "customer-portal" "POST" event ->
  authenticated event = Some user ->
  List.filter (eq_id (userId user)) (users (db w)) = [u] ->
  stripe_customer_id u = Some c ->
  c <> "" ->
  let call := BillingPortalSessionsCreate c (SITE_URL env ++ "/dashboard") in
  handle event w =
  (mkWorld (db w) (stripe_calls w ++ [call]),
   Normal match billingPortal_sessions_create (stripe_calls w) call with
          | Normal url => mkResponse 200 (BodyUrl url)
          | Throw error_message => mkResponse 500 (BodyError error_message)
          end).
Proof.
  intros H Hauth Hrow Hc Hne call. subst call.
  rewrite (handler_customer_portal _ _ H).
  unfold try_catch, customer_portal. rewrite Hauth.
  unfold mbind, M_bind. rewrite users_select_single_run, Hrow, Hc. cbn.
  destruct (String.eqb_spec c ""); [contradiction|]. cbn.
  unfold stripe_call.
  now destruct (billingPortal_sessions_create _ _).
Qed.

(** X13.  The status route only reads: it answers 200 with the four
    subscription fields of the caller's row, or with [null] when the token
    names no account, and the world is as before. *)
Theorem subscription_status_read_only (event : Request) (w : World) (user : Claims) :
  is_request "subscription-status" "GET" event ->
  authenticated event = Some user ->
  handle event w =
  (w, Normal (mkResponse 200
                (BodyUserData
                   match List.filter (eq_id (userId user)) (users (db w)) with
                   | [u] => Some (mkStatusView (subscription_status u)
                                    (subscription_plan u) (subscription_ends_at u)
                                    (trial_ends_at u))
                   | _ => None
                   end))).
Proof.
  intros H Hauth. rewrite (handler_subscription_status _ _ H).
  unfold try_catch, subscription_status_route. rewrite Hauth.
  unfold mbind, M_bind. rewrite users_select_single_run.
  destruct (List.filter _ _) as [|u [|u' us]]; reflexivity.
Qed.

(** X14.  From checkout to status: once the webhook has applied
    [checkout.session.completed] for an account's billing customer, the
    status route answers that account with status ['active'] and plan
    ['premium'], the period and trial ends being the ones it had. *)
Theorem status_after_checkout_completed (event : Request) (w : World)
    (user : Claims) (u : User) (t : Z) (session : Session) :
  is_request "subscription-status" "GET" event ->
  authenticated event = Some user ->
  List.filter (eq_id (userId user)) (users (db w)) = [u] ->
  eq_stripe_customer_id (ses_customer session) u = true ->
  let w' := exec (reconcile (mkStripeEvent t (CheckoutSessionCompleted session))) w in
  handle event w' =
  (w', Normal (mkResponse 200
                 (BodyUserData
                    (Some (mkStatusView (Some "active") (Some "premium")
                             (subscription_ends_at u) (trial_ends_at u)))))).
Proof.
  intros H Hauth Hrow Hc w'. subst w'.
  rewrite (handler_subscription_status _ _ H).
  unfold try_catch, subscription_status_route. rewrite Hauth.
  unfold mbind, M_bind. rewrite users_select_single_run.
  unfold exec. rewrite reconcile_checkout_completed. cbn [fst db users].
  pose proof (update_where_eq_id_row (eq_stripe_customer_id (ses_customer session))
                (checkout_completed_values session) (userId user) (users (db w)) u
                (fun _ => eq_refl) Hrow) as Hrow'.
  rewrite Hrow', Hc. reflexivity.
Qed.

(** X15.  [create-checkout] for a token that names no account: reading
    [stripe_customer_id] of [null] throws, the request is answered with 500
    and that message, and neither the database nor the processor is
    touched. *)
Theorem create_checkout_without_account (event : Request) (w : World)
    (user : Claims) (parsed : CheckoutBody) :
  is_request "create-checkout" "POST" event ->
  authenticated event = Some user ->
  JSON_parse (body event) = Normal parsed ->
  List.filter (eq_id (userId user)) (users (db w)) = [] ->
  handle event w =
  (w, Normal (mkResponse 500
                (BodyError "Cannot read properties of null (reading 'stripe_customer_id')"))).
Proof.
  intros H Hauth Hparse Hrow. rewrite (handler_create_checkout _ _ H).
  unfold try_catch, create_checkout. rewrite Hauth.
  unfold completion, mbind, M_bind. rewrite Hparse.
  unfold get_or_create_customer, mbind, M_bind.
  now rewrite users_select_single_run, Hrow.
Qed.

(** X16.  [create-checkout] with a body that does not parse is answered
    with 500 and the parser's message before the account is read: the world
    is as before. *)
Theorem create_checkout_bad_body (event : Request) (w : World) (user : Claims)
    (error_message : string) :
  is_request "create-checkout" "POST" event ->
  authenticated event = Some user ->
  JSON_parse (body event) = Throw error_message ->
  handle event w = (w, Normal (mkResponse 500 (BodyError error_message))).
Proof.
  intros H Hauth Hparse. rewrite (handler_create_checkout _ _ H).
  unfold try_catch, create_checkout. rewrite Hauth.
  unfold completion, mbind, M_bind. now rewrite Hparse.
Qed.

(** X17.  First checkout of an account: the processor is asked for a
    customer with the account's email and id, the id it returns is written
    to the rows with the account's id and to no other, and the checkout
    session is then requested for it.  The reference stays persisted when
    the session request throws and the answer is 500. *)
Theorem create_checkout_first_time (event : Request) (w : World)
    (user : Claims) (parsed : CheckoutBody) (u : User) (customerId : string) :
  is_request "create-checkout" "POST" event ->
  authenticated event = Some user ->
  JSON_parse (body event) = Normal parsed ->
  List.filter (eq_id (userId user)) (users (db w)) = [u] ->
  truthy (stripe_customer_id u) = false ->
  let create := CustomersCreate (u_email u) (userId user) in
  let open := CheckoutSessionsCreate customerId (priceId parsed) (successUrl parsed)
                (cancelUrl parsed) (userId user) in
  customers_create (stripe_calls w) create = Normal customerId ->
  handle event w =
  (mkWorld
     (mkDB (update_where (eq_id (userId user)) (set_stripe_customer_id customerId)
              (users (db w)))
        (payments (db w)))
     (stripe_calls w ++ [create; open]),
   Normal match checkout_sessions_create (stripe_calls w ++ [create]) open with
          | Normal session => mkResponse 200 (BodyCheckout (fst session) (snd session))
          | Throw error_message => mkResponse 500 (BodyError error_message)
          end).
Proof.
  intros H Hauth Hparse Hrow Hc create open Hcreate. subst create open.
  rewrite (handler_create_checkout _ _ H).
  unfold try_catch, create_checkout. rewrite Hauth.
  unfold completion, mbind, M_bind. rewrite Hparse.
  unfold get_or_create_customer, mbind, M_bind.
  rewrite users_select_single_run, Hrow, Hc.
  unfold stripe_call. rewrite Hcreate.
  unfold users_update, mbind, M_bind, get_db, put_db, mret, M_ret.
  cbn [db stripe_calls users payments fst snd].
  rewrite <- app_assoc. cbn [app].
  now destruct (checkout_sessions_create _ _).
Qed.

(** X18.  When the processor throws on the customer request, the first
    checkout is answered with 500 and the processor's message, and the
    database is as before: no reference is persisted. *)
Theorem create_checkout_customer_failure (event : Request) (w : World)
    (user : Claims) (parsed : CheckoutBody) (u : User) (error_message : string) :
  is_request "create-checkout" "POST" event ->
  authenticated event = Some user ->
  JSON_parse (body event) = Normal parsed ->
  List.filter (eq_id (userId user)) (users (db w)) = [u] ->
  truthy (stripe_customer_id u) = false ->
  let create := CustomersCreate (u_email u) (userId user) in
  customers_create (stripe_calls w) create = Throw error_message ->
  handle event w =
  (mkWorld (db w) (stripe_calls w ++ [create]),
   Normal (mkResponse 500 (BodyError error_message))).
Proof.
  intros H Hauth Hparse Hrow Hc create Hcreate. subst create.
  rewrite (handler_create_checkout _ _ H).
  unfold try_catch, create_checkout. rewrite Hauth.
  unfold completion, mbind, M_bind. rewrite Hparse.
  unfold get_or_create_customer, mbind, M_bind.
  rewrite users_select_single_run, Hrow, Hc.
  unfold stripe_call. now rewrite Hcreate.
Qed.

End HandlerRoutes.

(** ** The webhook route, and claim C6 *)

Section WebhookRoute.

Variable env : Env.
Variable constructEvent : string -> option string -> string -> option StripeEvent.
Variable jwt_verify : string -> string -> option Claims.
Variable JSON_parse : string -> Completion CheckoutBody.
Variable customers_create : list StripeCall -> StripeCall -> Completion string.
Variable checkout_sessions_create :
  list StripeCall -> StripeCall -> Completion (option string * string).
Variable billingPortal_sessions_create :
  list StripeCall -> StripeCall -> Completion (option string).

Local Abbreviation handle :=
  (handler env constructEvent jwt_verify JSON_parse customers_create
     checkout_sessions_create billingPortal_sessions_create).

Local Abbreviation verified event :=
  (constructEvent (body event) (headers event !! "stripe-signature")
     (STRIPE_WEBHOOK_SECRET env)).

(** The webhook's answer to a verified event, in one equation. *)
Lemma handler_webhook_exec (event : Request) (w : World) (e : StripeEvent) :
  is_webhook_request event ->
  verified event = Some e ->
  handle event w =
  (exec (reconcile e) w,
   Normal (if has_line e
           then mkResponse 200 (BodyReceived true)
           else mkResponse 500
                  (BodyError "Cannot read properties of undefined (reading 'period')"))).
Proof.
  intros Hw He.
  rewrite (handler_webhook_verified env constructEvent jwt_verify JSON_parse
             customers_create checkout_sessions_create
             billingPortal_sessions_create event w e Hw He).
  pose proof (reconcile_result e w) as Hres. unfold exec.
  destruct (reconcile e w) as [w' [[]|m]]; cbn [fst snd] in *;
    destruct (has_line e); congruence.
Qed.

(** C6 (as amended).  The reconciler resolves the accounts of a verified
    event by the billing-customer id on the event's subject object alone.
    Every row with that id gets the values of the event's update (status
    ['active'], ['past_due'] or ['cancelled'] by the type of the event),
    and a row with another id is left as it was, also when the event's
    metadata names it; when no account has the id, the [users] table is
    unchanged.  The account id in the metadata of an invoice event is only
    stored: it is the [client_id] of the PaymentRecord the handler offers
    to the store.  The handler answers 200 with [{received: true}] (the
    event being one whose handler runs to completion). *)
Theorem accounts_resolved_by_customer (event : Request) (w : World) (e : StripeEvent) :
  is_webhook_request event ->
  verified event = Some e ->
  has_line e = true ->
  exists w',
    handle event w = (w', Normal (mkResponse 200 (BodyReceived true))) /\
    length (users (db w')) = length (users (db w)) /\
    (forall (i : nat) (u : User),
       users (db w) !! i = Some u -> targets e u = true ->
       users (db w') !! i = Some (account_values e u) /\
       subscription_status (account_values e u) =
         match data e with
         | CheckoutSessionCompleted _ => Some "active"
         | InvoicePaymentSucceeded _ => Some "active"
         | InvoicePaymentFailed _ => Some "past_due"
         | CustomerSubscriptionDeleted _ => Some "cancelled"
         | OtherEvent _ => subscription_status u
         end) /\
    (forall (i : nat) (u : User),
       users (db w) !! i = Some u -> targets e u = false ->
       users (db w') !! i = Some u) /\
    ((forall u, In u (users (db w)) -> targets e u = false) ->
     users (db w') = users (db w)) /\
    payments (db w') =
      (payments (db w) ++
       match offered_row e with
       | Some row => if client_id_ok (users (db w)) (client_id row) then [row] else []
       | None => []
       end)%list /\
    (forall row, offered_row e = Some row -> client_id row = event_metadata_user_id e).
Proof.
  intros Hw He Hl. exists (exec (reconcile e) w).
  rewrite (handler_webhook_exec _ _ _ Hw He), Hl.
  split; [reflexivity|].
  rewrite reconcile_exec. cbn [db users payments].
  split; [apply update_where_length|].
  split.
  { intros i u Hu Ht. split; [now apply update_where_hit|].
    destruct e as [t [session|invoice|failedInvoice|subscription|type]];
      try reflexivity.
    unfold has_line in Hl. unfold account_values. cbn [data] in *.
    now destruct (inv_lines invoice). }
  split; [intros i u; apply update_where_miss|].
  split; [apply update_where_no_match|].
  split.
  - unfold inserted. destruct (offered_row e) as [row|]; [|now rewrite app_nil_r].
    destruct (client_id_ok _ _); [reflexivity|now rewrite app_nil_r].
  - destruct e as [t [session|invoice|failedInvoice|subscription|type]];
      intros row Hrow; try discriminate; injection Hrow as <-; reflexivity.
Qed.

(** X19.  The webhook never calls the processor: whatever the request
    carries and however its event handler ends, the log of calls is the
    one before. *)
Theorem webhook_calls_nothing (event : Request) (w : World) :
  is_webhook_request event ->
  stripe_calls (exec (handle event) w) = stripe_calls w.
Proof.
  intros Hw. unfold exec. destruct (verified event) as [e|] eqn:He.
  - rewrite (handler_webhook_exec _ _ _ Hw He). cbn [fst].
    now rewrite reconcile_exec.
  - now rewrite (handler_webhook_rejected env constructEvent jwt_verify JSON_parse
                   customers_create checkout_sessions_create
                   billingPortal_sessions_create event w Hw He).
Qed.

(** X20.  A verified event of a type without a [case] is acknowledged
    with 200 and [{received: true}] and changes nothing. *)
Theorem unhandled_event_acknowledged (event : Request) (w : World) (t : Z)
    (type : string) :
  is_webhook_request event ->
  verified event = Some (mkStripeEvent t (OtherEvent type)) ->
  handle event w = (w, Normal (mkResponse 200 (BodyReceived true))).
Proof.
  intros Hw He. now rewrite (handler_webhook_exec _ _ _ Hw He).
Qed.

(** X21.  A paid invoice without line items: the PaymentRecord is
    offered to the store as usual, reading [period] of the missing line
    then throws, no account is updated, and the processor is answered
    with 500, so that it will deliver the event again. *)
Theorem paid_invoice_without_line (event : Request) (w : World) (t : Z)
    (invoice : Invoice) :
  is_webhook_request event ->
  verified event = Some (mkStripeEvent t (InvoicePaymentSucceeded invoice)) ->
  inv_lines invoice = [] ->
  handle event w =
  (mkWorld
     (mkDB (users (db w))
        (if client_id_ok (users (db w)) (inv_metadata invoice !! "user_id")
         then payments (db w) ++ [succeeded_row invoice]
         else payments (db w)))
     (stripe_calls w),
   Normal (mkResponse 500
             (BodyError "Cannot read properties of undefined (reading 'period')"))).
Proof.
  intros Hw He Hl. rewrite (handler_webhook_exec _ _ _ Hw He).
  unfold exec, has_line. cbn [data].
  now rewrite (reconcile_payment_succeeded_no_line _ _ _ Hl), Hl.
Qed.

(** X22.  A failed invoice whose metadata names an account that does not
    exist: the store refuses the PaymentRecord, the handler does not
    notice, the accounts of the invoice's billing customer become
    ['past_due'], and the event is acknowledged with 200. *)
Theorem failed_invoice_of_unknown_account (event : Request) (w : World) (t : Z)
    (failedInvoice : Invoice) :
  is_webhook_request event ->
  verified event = Some (mkStripeEvent t (InvoicePaymentFailed failedInvoice)) ->
  client_id_ok (users (db w)) (inv_metadata failedInvoice !! "user_id") = false ->
  handle event w =
  (mkWorld
     (mkDB (update_where (eq_stripe_customer_id (inv_customer failedInvoice))
              payment_failed_values (users (db w)))
        (payments (db w)))
     (stripe_calls w),
   Normal (mkResponse 200 (BodyReceived true))).
Proof.
  intros Hw He Hfk. rewrite (handler_webhook_exec _ _ _ Hw He).
  unfold exec. rewrite reconcile_payment_failed. cbn [fst].
  unfold inserted. cbn [client_id failed_row]. now rewrite Hfk.
Qed.

Lemma caught_status (m : M Response) (w : World) :
  (forall w' r, m w = (w', Normal r) -> known_status (statusCode r) = true) ->
  exists w' r,
    try_catch m (fun error_message => mret (mkResponse 500 (BodyError error_message))) w
      = (w', Normal r) /\
    known_status (statusCode r) = true.
Proof.
  intros Hm. unfold try_catch. destruct (m w) as [w' [r|e]] eqn:E.
  - exists w', r. split; [reflexivity|]. now apply (Hm w').
  - now exists w', (mkResponse 500 (BodyError e)).
Qed.

(** X23.  Every request is answered, and with one of five status codes:
    200, 400, 401, 404 or 500.  Nothing a route throws leaves the handler. *)
Theorem handler_status_codes (event : Request) (w : World) :
  exists w' r,
    handle event w = (w', Normal r) /\ known_status (statusCode r) = true.
Proof.
  unfold handler. destruct (String.eqb (httpMethod event) "OPTIONS").
  - now exists w, (mkResponse 200 BodyEmpty).
  - apply caught_status. intros w' r.
    unfold routes, create_checkout, webhook, customer_portal,
      subscription_status_route, get_or_create_customer, users_select_single,
      users_update, stripe_call, completion, read_of_null, throw, get_db, put_db,
      mbind, M_bind, mret, M_ret.
    repeat match goal with
           | |- context [match ?x with _ => _ end] => destruct x
           | |- context [if ?x then _ else _] => destruct x
           end;
      intros Hr; inversion Hr; reflexivity.
Qed.

End WebhookRoute.

(** ** Revenue analytics *)

Lemma existsb_eqb_In (k : string) (l : list string) :
  existsb (String.eqb k) l = true <-> In k l.
Proof.
  rewrite existsb_exists. split.
  - intros (x & Hin & Heq). apply String.eqb_eq in Heq. now subst.
  - intros Hin. exists k. split; [assumption|apply String.eqb_refl].
Qed.

Lemma first_occurrences_snoc (l : list string) (k : string) :
  first_occurrences (l ++ [k]) =
  if existsb (String.eqb k) (first_occurrences l)
  then first_occurrences l
  else (first_occurrences l ++ [k])%list.
Proof. unfold first_occurrences. now rewrite fold_left_app. Qed.

Lemma first_occurrences_In (l : list string) (k : string) :
  In k (first_occurrences l) <-> In k l.
Proof.
  revert k. induction l as [|x l IH] using rev_ind; intros k; [reflexivity|].
  rewrite first_occurrences_snoc, in_app_iff.
  destruct (existsb (String.eqb x) (first_occurrences l)) eqn:E.
  - apply existsb_eqb_In, IH in E. rewrite IH. cbn.
    split; [tauto|]. intros [H|[<-|[]]]; assumption.
  - rewrite in_app_iff, IH. reflexivity.
Qed.

Lemma first_occurrences_NoDup (l : list string) : List.NoDup (first_occurrences l).
Proof.
  induction l as [|x l IH] using rev_ind; [constructor|].
  rewrite first_occurrences_snoc.
  destruct (existsb (String.eqb x) (first_occurrences l)) eqn:E; [assumption|].
  apply List.NoDup_app; repeat split.
  - assumption.
  - constructor; [intros []|constructor].
  - intros k Hk [<-|[]]. apply existsb_eqb_In in Hk. congruence.
Qed.

Section RevenueFacts.

Variable number : Type.
Variable zero : number.
Variable plus : number -> number -> number.
Variable iso_date : string -> string.
Variable year_month : string -> string.
Variable period : string.

Local Abbreviation key p := (revenue_key iso_date year_month period (rr_created_at p)).
Local Abbreviation rows_of k ps := (payments_of iso_date year_month period k ps).

(** The group of a key, read off the payments. *)
Local Abbreviation group k ps :=
  (mkRevenueGroup k (sum_left zero plus (rr_amount <$> rows_of k ps))
     (Z.of_nat (length (rows_of k ps)))).

Local Abbreviation step :=
  (fun grouped payment => add_payment zero plus (key payment) (rr_amount payment) grouped).

Lemma payments_of_snoc (k : string) (ps : list (RevenueRow number)) (p : RevenueRow number) :
  rows_of k (ps ++ [p]) = (rows_of k ps ++ if String.eqb (key p) k then [p] else [])%list.
Proof. unfold payments_of. rewrite List.filter_app. cbn. now destruct (String.eqb _ k). Qed.

Lemma payments_of_absent (k : string) (ps : list (RevenueRow number)) :
  ~ In k ((fun p => key p) <$> ps) -> rows_of k ps = [].
Proof.
  unfold payments_of. induction ps as [|p ps IH]; [reflexivity|]. cbn.
  intros Hn. destruct (String.eqb_spec (key p) k) as [Heq|_].
  - destruct Hn. now left.
  - apply IH. intros Hin. apply Hn. now right.
Qed.

Lemma group_snoc (k : string) (ps : list (RevenueRow number)) (p : RevenueRow number) :
  group k (ps ++ [p]) =
  if String.eqb k (key p)
  then mkRevenueGroup k (plus (rg_revenue (group k ps)) (rr_amount p))
         (rg_count (group k ps) + 1)
  else group k ps.
Proof.
  rewrite payments_of_snoc, (String.eqb_sym k).
  destruct (String.eqb (key p) k).
  - rewrite fmap_app, length_app. unfold sum_left. rewrite fold_left_app. cbn.
    f_equal. lia.
  - now rewrite app_nil_r.
Qed.

Lemma add_payment_groups (k : string) (a : number) (g : string -> RevenueGroup number)
    (l : list string) :
  (forall k', rg_date (g k') = k') ->
  List.NoDup l ->
  add_payment zero plus k a ((fun k' => (k', g k')) <$> l) =
  if existsb (String.eqb k) l
  then (fun k' =>
          (k', if String.eqb k' k
               then mkRevenueGroup k' (plus (rg_revenue (g k')) a) (rg_count (g k') + 1)
               else g k')) <$> l
  else (((fun k' => (k', g k')) <$> l) ++ [(k, mkRevenueGroup k (plus zero a) (0 + 1))])%list.
Proof.
  intros Hdate. induction l as [|k0 l IH]; intros Hnd; [reflexivity|].
  inversion Hnd as [|? ? Hnotin Hnd']; subst. cbn.
  rewrite (String.eqb_sym k k0).
  destruct (String.eqb_spec k0 k) as [->|Hne]; cbn.
  - rewrite Hdate. f_equal. apply list_fmap_ext. intros i k' Hk'.
    destruct (String.eqb_spec k' k) as [->|_]; [|reflexivity].
    destruct Hnotin. apply list_elem_of_In, list_elem_of_lookup. eauto.
  - rewrite (IH Hnd'). now destruct (existsb (String.eqb k) l).
Qed.

(** The accumulation of the [forEach], entry by entry. *)
Lemma grouped_entries (ps : list (RevenueRow number)) :
  fold_left step ps [] =
  (fun k => (k, group k ps)) <$> first_occurrences ((fun p => key p) <$> ps).
Proof.
  induction ps as [|p ps IH] using rev_ind; [reflexivity|].
  rewrite fold_left_app. cbn [fold_left]. rewrite IH.
  rewrite add_payment_groups;
    [|reflexivity|apply first_occurrences_NoDup].
  rewrite fmap_app. cbn [fmap list_fmap]. rewrite first_occurrences_snoc.
  destruct (existsb (String.eqb (key p)) _) eqn:E.
  - apply list_fmap_ext. intros i k _. f_equal. now rewrite group_snoc.
  - rewrite fmap_app. f_equal.
    + apply list_fmap_ext. intros i k Hk. f_equal. rewrite group_snoc.
      destruct (String.eqb_spec k (key p)) as [->|_]; [|reflexivity].
      assert (Hin : In (key p) (first_occurrences ((fun p => key p) <$> ps)))
        by (apply list_elem_of_In, list_elem_of_lookup; eauto).
      apply existsb_eqb_In in Hin. congruence.
    + cbn. f_equal. f_equal. rewrite group_snoc, String.eqb_refl.
      rewrite payments_of_absent; [reflexivity|].
      intros Hin. apply first_occurrences_In, existsb_eqb_In in Hin. congruence.
Qed.

Lemma groupRevenueByPeriod_spec (ps : list (RevenueRow number)) :
  groupRevenueByPeriod zero plus iso_date year_month (Some ps) period =
  (fun k => group k ps) <$> first_occurrences ((fun p => key p) <$> ps).
Proof.
  unfold groupRevenueByPeriod. rewrite grouped_entries.
  rewrite <- list_fmap_compose. now apply list_fmap_ext.
Qed.

(** X24.  [groupRevenueByPeriod] is a group-by: it returns one entry per
    day (periods ['week'] and ['month']) or per calendar month (any other
    period) that has a payment, in the order in which the days or months
    first occur; an entry's [count] is the number of its payments and its
    [revenue] their amounts added from the left to 0, in the order of the
    query. *)
Theorem groupRevenueByPeriod_groups (ps : list (RevenueRow number)) :
  groupRevenueByPeriod zero plus iso_date year_month (Some ps) period =
  (fun k => group k ps) <$> first_occurrences ((fun p => key p) <$> ps).
Proof. apply groupRevenueByPeriod_spec. Qed.

(** X25.  The entries of [groupRevenueByPeriod] have pairwise different
    dates, and the dates are exactly the days or months of the payments:
    no payment is left out and no entry is empty. *)
Theorem groupRevenueByPeriod_dates (ps : list (RevenueRow number)) :
  let entries := groupRevenueByPeriod zero plus iso_date year_month (Some ps) period in
  List.NoDup (rg_date <$> entries) /\
  (forall k, In k (rg_date <$> entries) <-> exists p, In p ps /\ key p = k) /\
  (forall g, In g entries -> 1 <= rg_count g).
Proof.
  cbn zeta. rewrite groupRevenueByPeriod_spec.
  set (keys := first_occurrences ((fun p => key p) <$> ps)).
  assert (Hdates : rg_date <$> ((fun k => group k ps) <$> keys) = keys).
  { rewrite <- list_fmap_compose. transitivity (id <$> keys).
    - now apply list_fmap_ext.
    - apply list_fmap_id. }
  rewrite Hdates. split; [apply first_occurrences_NoDup|]. split.
  - intros k. unfold keys.
    rewrite first_occurrences_In, <- list_elem_of_In, list_elem_of_fmap.
    split; intros (p & H1 & H2); exists p; rewrite ?list_elem_of_In in *; auto.
  - intros g Hg. apply list_elem_of_In, list_elem_of_fmap in Hg.
    destruct Hg as (k & -> & Hk). cbn.
    apply list_elem_of_In, first_occurrences_In, list_elem_of_In,
      list_elem_of_fmap in Hk.
    destruct Hk as (p & -> & Hp). unfold payments_of.
    apply list_elem_of_In in Hp.
    assert (Hin : In p (List.filter
                          (fun q => String.eqb (key q) (key p)) ps))
      by (apply List.filter_In; split; [assumption|apply String.eqb_refl]).
    destruct (List.filter _ ps); [destruct Hin|cbn; lia].
Qed.

Lemma add_payment_count (k : string) (a : number)
    (grouped : list (string * RevenueGroup number)) :
  fold_right Z.add 0 ((rg_count ∘ snd) <$> add_payment zero plus k a grouped) =
  fold_right Z.add 0 ((rg_count ∘ snd) <$> grouped) + 1.
Proof.
  induction grouped as [|[k0 g] grouped IH]; [reflexivity|]. cbn.
  destruct (String.eqb k0 k); cbn; [lia|]. rewrite IH. lia.
Qed.

(** X26.  The [count]s of the entries of [groupRevenueByPeriod] add up to
    the number of payments it was given; for [null] there is no entry. *)
Theorem groupRevenueByPeriod_counts (payments : option (list (RevenueRow number))) :
  fold_right Z.add 0
    (rg_count <$> groupRevenueByPeriod zero plus iso_date year_month payments period) =
  Z.of_nat (length (default [] payments)).
Proof.
  unfold groupRevenueByPeriod. rewrite <- list_fmap_compose.
  destruct payments as [ps|]; [|reflexivity].
  change (default [] (Some ps)) with ps.
  induction ps as [|p ps IH] using rev_ind; [reflexivity|].
  rewrite fold_left_app. cbn [fold_left].
  rewrite add_payment_count, IH, length_app. cbn. lia.
Qed.

End RevenueFacts.

(** ** The admin dashboard *)

Lemma filter_or_length {A} (p q : A -> bool) (l : list A) :
  (forall x, p x = true -> q x = true -> False) ->
  length (List.filter (fun x => p x || q x) l) =
  (length (List.filter p l) + length (List.filter q l))%nat.
Proof.
  intros Hpq. induction l as [|x l IH]; [reflexivity|]. cbn.
  destruct (p x) eqn:Ep, (q x) eqn:Eq; cbn; rewrite IH; try lia.
  destruct (Hpq x Ep Eq).
Qed.

(** X27.  In the metrics of the admin dashboard the clients counted as
    active are those with status ['active'] together with those still
    ['trialing'], and [monthlyRecurringRevenue] is 79 for each of them; a
    failed query ([null]) counts as no client. *)
Theorem metrics_client_counts (clients : option (list ClientRow)) :
  activeClients clients =
    Z.of_nat (length (List.filter (has_status "active") (default [] clients)))
    + trialClients clients /\
  0 <= trialClients clients <= activeClients clients /\
  activeClients clients <= Z.of_nat (length (default [] clients)) /\
  monthlyRecurringRevenue clients = 79 * activeClients clients.
Proof.
  unfold monthlyRecurringRevenue, activeClients, trialClients.
  destruct clients as [cs|]; [|cbn; lia].
  change (default [] (Some cs)) with cs.
  rewrite filter_or_length.
  - pose proof (List.filter_length_le (has_status "active") cs).
    pose proof (List.filter_length_le
                  (fun c => has_status "active" c || has_status "trialing" c) cs) as Hle.
    rewrite filter_or_length in Hle.
    + lia.
    + intros c. unfold has_status. destruct (cl_subscription_status c); [|discriminate].
      intros H1 H2. apply String.eqb_eq in H1, H2. congruence.
  - intros c. unfold has_status. destruct (cl_subscription_status c); [|discriminate].
    intros H1 H2. apply String.eqb_eq in H1, H2. congruence.
Qed.

Section AdminFacts.

Variable env : Env.
Variable jwt_verify : string -> string -> option TokenPayload.
Variable admin_routes : TokenPayload -> string -> string -> Request -> M Response.

(** X28.  The admin dashboard answers every request but a preflight whose
    token is missing, refused, or decodes to a payload whose [role] is not
    ['admin'] (a payload without [role] included) with 401 and [{error:
    'Admin access required'}], before it looks at the path: no route runs
    and the world is as before. *)
Theorem admin_required (event : Request) (w : World) :
  String.eqb (httpMethod event) "OPTIONS" = false ->
  (forall user,
     verifyAdminToken env jwt_verify (headers event !! "authorization") = Some user ->
     tp_role user <> Some "admin") ->
  admin_handler env jwt_verify admin_routes event w =
  (w, Normal (mkResponse 401 (BodyError "Admin access required"))).
Proof.
  intros Ho Hrole. unfold admin_handler. rewrite Ho.
  destruct (verifyAdminToken _ _ _) as [user|]; [|reflexivity].
  specialize (Hrole user eq_refl). unfold requireAdmin.
  destruct (tp_role user) as [role|]; [|reflexivity].
  destruct (String.eqb_spec role "admin") as [->|_]; [now destruct Hrole|reflexivity].
Qed.

End AdminFacts.

(** ** The further properties at the sample data *)

Lemma fixture_request (method route : string) (authorization : option string) :
  is_request route method (Fixture.request method route authorization).
Proof.
  split; [|reflexivity]. unfold Fixture.request. cbn [path].
  apply (replace_prefix_route "/.netlify/functions/stripe-payments/" route).
Qed.

Lemma subscription_deleted_applied_witness :
  exists w' u',
    reconcile Sample.cancelled Sample.world = (w', Normal tt) /\
    payments (db w') = payments (db Sample.world) /\
    users (db w') !! 0%nat = Some u' /\
    u_id u' = "u1" /\
    subscription_status u' = Some "cancelled" /\
    subscription_ends_at u' = Some 2000000000000 /\
    stripe_subscription_id u' = Some "sub_A" /\
    subscription_plan u' = Some "premium".
Proof.
  apply (subscription_deleted_applied 2000000000 Sample.subscription 2000000000
           Sample.world 0%nat Sample.alice);
    [reflexivity | reflexivity | reflexivity | lia].
Defined.

Lemma different_customers_commute_witness :
  users (db (exec (reconcile Fixture.failed_bob)
               (exec (reconcile Sample.cancelled) Sample.world))) =
  users (db (exec (reconcile Sample.cancelled)
               (exec (reconcile Fixture.failed_bob) Sample.world))).
Proof.
  apply (different_customers_commute Sample.cancelled Fixture.failed_bob Sample.world).
  intros c Hc. cbn in Hc. injection Hc as <-. cbn. discriminate.
Defined.

Lemma payment_succeeded_ends_at_range_witness :
  exists u',
    users (db (exec (reconcile Fixture.paid_far_future) Sample.world)) !! 0%nat
      = Some u' /\
    subscription_status u' = Some "active" /\
    subscription_ends_at u' = None.
Proof.
  apply (payment_succeeded_ends_at_range 1697000100
           (Sample.invoice "cus_A" (Some "u1") [mkLineItem 1697000000 8640000000001])
           (mkLineItem 1697000000 8640000000001) [] Sample.world 0%nat Sample.alice);
    [reflexivity | reflexivity | reflexivity | right; cbn; lia].
Defined.

Lemma unauthenticated_rejected_witness :
  Fixture.serve (Fixture.request "POST" "customer-portal" None) Sample.world =
    (Sample.world, Normal (mkResponse 401 (BodyError "Unauthorized"))) /\
  Fixture.serve (Fixture.request "GET" "subscription-status" (Some "Basic dTE6cHc="))
    Sample.world =
    (Sample.world, Normal (mkResponse 401 (BodyError "Unauthorized"))).
Proof.
  split.
  - apply (unauthenticated_rejected Sample.env
             (Sample.constructEvent Sample.completed) Sample.jwt_verify
             Sample.JSON_parse Sample.customers_create
             Sample.checkout_sessions_create Sample.billingPortal_sessions_create
             (Fixture.request "POST" "customer-portal" None) Sample.world);
      [right; left; apply fixture_request | vm_compute; reflexivity].
  - apply (unauthenticated_rejected Sample.env
             (Sample.constructEvent Sample.completed) Sample.jwt_verify
             Sample.JSON_parse Sample.customers_create
             Sample.checkout_sessions_create Sample.billingPortal_sessions_create
             (Fixture.request "GET" "subscription-status" (Some "Basic dTE6cHc="))
             Sample.world);
      [right; right; apply fixture_request | vm_compute; reflexivity].
Defined.

Lemma unknown_route_not_found_witness :
  Fixture.serve (Fixture.request "GET" "webhook" None) Sample.world =
    (Sample.world, Normal (mkResponse 404 (BodyError "Not found"))).
Proof.
  apply (unknown_route_not_found Sample.env
           (Sample.constructEvent Sample.completed) Sample.jwt_verify
           Sample.JSON_parse Sample.customers_create
           Sample.checkout_sessions_create Sample.billingPortal_sessions_create
           "webhook" "GET" (Fixture.request "GET" "webhook" None) Sample.world);
    [apply fixture_request | reflexivity | reflexivity].
Defined.

Lemma customer_portal_without_customer_witness :
  Fixture.serve (Fixture.request "POST" "customer-portal" (Some "Bearer u4"))
    Fixture.world =
    (Fixture.world, Normal (mkResponse 400 (BodyError "No subscription found"))).
Proof.
  apply (customer_portal_without_customer Sample.env
           (Sample.constructEvent Sample.completed) Sample.jwt_verify
           Sample.JSON_parse Sample.customers_create
           Sample.checkout_sessions_create Sample.billingPortal_sessions_create
           (Fixture.request "POST" "customer-portal" (Some "Bearer u4"))
           Fixture.world (mkClaims "u4") Fixture.dave);
    [apply fixture_request | vm_compute; reflexivity | reflexivity | reflexivity].
Defined.

Lemma customer_portal_with_customer_witness :
  Fixture.serve (Fixture.request "POST" "customer-portal" (Some "Bearer u1"))
    Sample.world =
    (mkWorld (db Sample.world)
       [BillingPortalSessionsCreate "cus_A" "https://example.com/dashboard"],
     Normal (mkResponse 200 (BodyUrl (Some "https://portal.example/bps_1")))).
Proof.
  apply (customer_portal_with_customer Sample.env
           (Sample.constructEvent Sample.completed) Sample.jwt_verify
           Sample.JSON_parse Sample.customers_create
           Sample.checkout_sessions_create Sample.billingPortal_sessions_create
           (Fixture.request "POST" "customer-portal" (Some "Bearer u1"))
           Sample.world (mkClaims "u1") Sample.alice "cus_A");
    [apply fixture_request | vm_compute; reflexivity | reflexivity
    | reflexivity | discriminate].
Defined.

Lemma subscription_status_read_only_witness :
  Fixture.serve (Fixture.request "GET" "subscription-status" (Some "Bearer u1"))
    Sample.world =
    (Sample.world,
     Normal (mkResponse 200
               (BodyUserData
                  (Some (mkStatusView (Some "active") (Some "premium")
                           (Some 2000000000000) None))))) /\
  Fixture.serve (Fixture.request "GET" "subscription-status" (Some "Bearer u9"))
    Sample.world =
    (Sample.world, Normal (mkResponse 200 (BodyUserData None))).
Proof.
  split.
  - apply (subscription_status_read_only Sample.env
             (Sample.constructEvent Sample.completed) Sample.jwt_verify
             Sample.JSON_parse Sample.customers_create
             Sample.checkout_sessions_create Sample.billingPortal_sessions_create
             (Fixture.request "GET" "subscription-status" (Some "Bearer u1"))
             Sample.world (mkClaims "u1"));
      [apply fixture_request | vm_compute; reflexivity].
  - apply (subscription_status_read_only Sample.env
             (Sample.constructEvent Sample.completed) Sample.jwt_verify
             Sample.JSON_parse Sample.customers_create
             Sample.checkout_sessions_create Sample.billingPortal_sessions_create
             (Fixture.request "GET" "subscription-status" (Some "Bearer u9"))
             Sample.world (mkClaims "u9"));
      [apply fixture_request | vm_compute; reflexivity].
Defined.

Lemma status_after_checkout_completed_witness :
  let w' := exec (reconcile (mkStripeEvent 1697000100
                               (CheckoutSessionCompleted (mkSession "cus_B" (Some "sub_B2") None))))
              Fixture.world_past_due in
  Fixture.serve (Fixture.request "GET" "subscription-status" (Some "Bearer u2")) w' =
    (w', Normal (mkResponse 200
                   (BodyUserData
                      (Some (mkStatusView (Some "active") (Some "premium")
                               (Some 2000000000000) None))))).
Proof.
  apply (status_after_checkout_completed Sample.env
           (Sample.constructEvent Sample.completed) Sample.jwt_verify
           Sample.JSON_parse Sample.customers_create
           Sample.checkout_sessions_create Sample.billingPortal_sessions_create
           (Fixture.request "GET" "subscription-status" (Some "Bearer u2"))
           Fixture.world_past_due (mkClaims "u2") Fixture.bob_past_due 1697000100
           (mkSession "cus_B" (Some "sub_B2") None));
    [apply fixture_request | vm_compute; reflexivity | reflexivity | reflexivity].
Defined.

Lemma create_checkout_without_account_witness :
  Fixture.serve (Fixture.request "POST" "create-checkout" (Some "Bearer u9"))
    Sample.world =
    (Sample.world,
     Normal (mkResponse 500
               (BodyError "Cannot read properties of null (reading 'stripe_customer_id')"))).
Proof.
  apply (create_checkout_without_account Sample.env
           (Sample.constructEvent Sample.completed) Sample.jwt_verify
           Sample.JSON_parse Sample.customers_create
           Sample.checkout_sessions_create Sample.billingPortal_sessions_create
           (Fixture.request "POST" "create-checkout" (Some "Bearer u9"))
           Sample.world (mkClaims "u9") (mkCheckoutBody (Some "price_1") None None));
    [apply fixture_request | vm_compute; reflexivity | reflexivity | reflexivity].
Defined.

Lemma create_checkout_bad_body_witness :
  Fixture.handler_with Sample.completed Fixture.JSON_parse_error
    Sample.customers_create Sample.checkout_sessions_create
    (Fixture.request "POST" "create-checkout" (Some "Bearer u1")) Sample.world =
    (Sample.world,
     Normal (mkResponse 500 (BodyError "Unexpected token p in JSON at position 0"))).
Proof.
  apply (create_checkout_bad_body Sample.env
           (Sample.constructEvent Sample.completed) Sample.jwt_verify
           Fixture.JSON_parse_error Sample.customers_create
           Sample.checkout_sessions_create Sample.billingPortal_sessions_create
           (Fixture.request "POST" "create-checkout" (Some "Bearer u1"))
           Sample.world (mkClaims "u1"));
    [apply fixture_request | vm_compute; reflexivity | reflexivity].
Defined.

Lemma create_checkout_first_time_witness :
  Fixture.handler_with Sample.completed Sample.JSON_parse Sample.customers_create
    Fixture.unavailable
    (Fixture.request "POST" "create-checkout" (Some "Bearer u3")) Sample.world =
    (mkWorld
       (mkDB [Sample.alice; Sample.bob; set_stripe_customer_id "cus_new" Sample.carol] [])
       [CustomersCreate "carol@example.com" "u3";
        CheckoutSessionsCreate "cus_new" (Some "price_1") None None "u3"],
     Normal (mkResponse 500
               (BodyError "An error occurred with our connection to Stripe."))).
Proof.
  apply (create_checkout_first_time Sample.env
           (Sample.constructEvent Sample.completed) Sample.jwt_verify
           Sample.JSON_parse Sample.customers_create
           Fixture.unavailable Sample.billingPortal_sessions_create
           (Fixture.request "POST" "create-checkout" (Some "Bearer u3"))
           Sample.world (mkClaims "u3") (mkCheckoutBody (Some "price_1") None None)
           Sample.carol "cus_new");
    [apply fixture_request | vm_compute; reflexivity | reflexivity | reflexivity
    | reflexivity | reflexivity].
Defined.

Lemma create_checkout_customer_failure_witness :
  Fixture.handler_with Sample.completed Sample.JSON_parse Fixture.unavailable
    Sample.checkout_sessions_create
    (Fixture.request "POST" "create-checkout" (Some "Bearer u3")) Sample.world =
    (mkWorld (db Sample.world) [CustomersCreate "carol@example.com" "u3"],
     Normal (mkResponse 500
               (BodyError "An error occurred with our connection to Stripe."))).
Proof.
  apply (create_checkout_customer_failure Sample.env
           (Sample.constructEvent Sample.completed) Sample.jwt_verify
           Sample.JSON_parse Fixture.unavailable
           Sample.checkout_sessions_create Sample.billingPortal_sessions_create
           (Fixture.request "POST" "create-checkout" (Some "Bearer u3"))
           Sample.world (mkClaims "u3") (mkCheckoutBody (Some "price_1") None None)
           Sample.carol "An error occurred with our connection to Stripe.");
    [apply fixture_request | vm_compute; reflexivity | reflexivity | reflexivity
    | reflexivity | reflexivity].
Defined.

Lemma webhook_calls_nothing_witness :
  stripe_calls
    (exec (Sample.handler Sample.failed (Sample.webhook_request Sample.good_signature))
       Sample.world) = [].
Proof.
  apply (webhook_calls_nothing Sample.env (Sample.constructEvent Sample.failed)
           Sample.jwt_verify Sample.JSON_parse Sample.customers_create
           Sample.checkout_sessions_create Sample.billingPortal_sessions_create
           (Sample.webhook_request Sample.good_signature) Sample.world).
  split; reflexivity.
Defined.

Lemma unhandled_event_acknowledged_witness :
  Sample.handler Fixture.unhandled (Sample.webhook_request Sample.good_signature)
    Sample.world =
    (Sample.world, Normal (mkResponse 200 (BodyReceived true))).
Proof.
  apply (unhandled_event_acknowledged Sample.env
           (Sample.constructEvent Fixture.unhandled) Sample.jwt_verify
           Sample.JSON_parse Sample.customers_create
           Sample.checkout_sessions_create Sample.billingPortal_sessions_create
           (Sample.webhook_request Sample.good_signature) Sample.world
           1697000100 "customer.created");
    [split; reflexivity | vm_compute; reflexivity].
Defined.

Lemma paid_invoice_without_line_witness :
  Sample.handler Sample.paid_no_line (Sample.webhook_request Sample.good_signature)
    Sample.world =
    (mkWorld
       (mkDB (users (db Sample.world))
          [succeeded_row (Sample.invoice "cus_A" (Some "u1") [])])
       [],
     Normal (mkResponse 500
               (BodyError "Cannot read properties of undefined (reading 'period')"))).
Proof.
  apply (paid_invoice_without_line Sample.env
           (Sample.constructEvent Sample.paid_no_line) Sample.jwt_verify
           Sample.JSON_parse Sample.customers_create
           Sample.checkout_sessions_create Sample.billingPortal_sessions_create
           (Sample.webhook_request Sample.good_signature) Sample.world
           1697000100 (Sample.invoice "cus_A" (Some "u1") []));
    [split; reflexivity | vm_compute; reflexivity | reflexivity].
Defined.

Lemma failed_invoice_of_unknown_account_witness :
  Sample.handler Sample.failed_unknown_user
    (Sample.webhook_request Sample.good_signature) Sample.world =
    (mkWorld
       (mkDB [payment_failed_values Sample.alice; Sample.bob; Sample.carol] [])
       [],
     Normal (mkResponse 200 (BodyReceived true))).
Proof.
  apply (failed_invoice_of_unknown_account Sample.env
           (Sample.constructEvent Sample.failed_unknown_user) Sample.jwt_verify
           Sample.JSON_parse Sample.customers_create
           Sample.checkout_sessions_create Sample.billingPortal_sessions_create
           (Sample.webhook_request Sample.good_signature) Sample.world
           1697000100 (Sample.invoice "cus_A" (Some "u9") [Sample.line]));
    [split; reflexivity | vm_compute; reflexivity | vm_compute; reflexivity].
Defined.

Lemma admin_required_witness :
  admin_handler Sample.env Fixture.jwt_verify_payload Fixture.admin_routes
    (Fixture.admin_request "u1") Sample.world =
    (Sample.world, Normal (mkResponse 401 (BodyError "Admin access required"))).
Proof.
  apply (admin_required Sample.env Fixture.jwt_verify_payload Fixture.admin_routes
           (Fixture.admin_request "u1") Sample.world).
  - reflexivity.
  - intros user Huser. vm_compute in Huser. injection Huser as <-. discriminate.
Defined.

Lemma route_after_mount_witness :
  Fixture.serve (Fixture.request "GET" "webhook" None) Sample.world =
  try_catch
    (routes Sample.env (Sample.constructEvent Sample.completed) Sample.jwt_verify
       Sample.JSON_parse Sample.customers_create Sample.checkout_sessions_create
       Sample.billingPortal_sessions_create "webhook" "GET"
       (Fixture.request "GET" "webhook" None))
    (fun error_message => mret (mkResponse 500 (BodyError error_message)))
    Sample.world.
Proof.
  apply (route_after_mount Sample.env
           (Sample.constructEvent Sample.completed) Sample.jwt_verify
           Sample.JSON_parse Sample.customers_create
           Sample.checkout_sessions_create Sample.billingPortal_sessions_create
           "webhook" (Fixture.request "GET" "webhook" None) Sample.world);
    reflexivity.
Defined.

(** The invoice's metadata names Alice and its billing customer is Bob's:
    Bob's row is updated, Alice's is not, and Alice's id is the
    [client_id] of the PaymentRecord. *)
Lemma accounts_resolved_by_customer_witness :
  exists w' row,
    Sample.handler Sample.failed_mixed
      (Sample.webhook_request Sample.good_signature) Sample.world =
      (w', Normal (mkResponse 200 (BodyReceived true))) /\
    users (db w') !! 0%nat = Some Sample.alice /\
    users (db w') !! 1%nat = Some (payment_failed_values Sample.bob) /\
    subscription_status (payment_failed_values Sample.bob) = Some "past_due" /\
    payments (db w') = [row] /\
    client_id row = Some "u1".
Proof.
  destruct (accounts_resolved_by_customer Sample.env
              (Sample.constructEvent Sample.failed_mixed)
              Sample.jwt_verify Sample.JSON_parse Sample.customers_create
              Sample.checkout_sessions_create Sample.billingPortal_sessions_create
              (Sample.webhook_request Sample.good_signature) Sample.world
              Sample.failed_mixed)
    as (w' & Hresponse & _ & Hmatch & Hother & _ & Hpayments & Hclient);
    [split; reflexivity | vm_compute; reflexivity | reflexivity |].
  exists w', (failed_row (Sample.invoice "cus_B" (Some "u1") [Sample.line])).
  split; [exact Hresponse|].
  split; [apply (Hother 0%nat Sample.alice); reflexivity|].
  destruct (Hmatch 1%nat Sample.bob) as [Hbob Hstatus]; [reflexivity|reflexivity|].
  split; [exact Hbob|].
  split; [exact Hstatus|].
  split; [rewrite Hpayments; vm_compute; reflexivity|].
  rewrite (Hclient _ eq_refl). vm_compute. reflexivity.
Defined.

(** The revenue of four payments, by day and by month. *)
Example groupRevenueByPeriod_sample :
  groupRevenueByPeriod 0 Z.add Fixture.iso_date Fixture.year_month
    (Some Fixture.revenue_rows) "week" =
    [mkRevenueGroup "2024-01-15" 158 2; mkRevenueGroup "2024-01-16" 49 1;
     mkRevenueGroup "2024-02-01" 149 1] /\
  groupRevenueByPeriod 0 Z.add Fixture.iso_date Fixture.year_month
    (Some Fixture.revenue_rows) "year" =
    [mkRevenueGroup "2024-1" 207 3; mkRevenueGroup "2024-2" 149 1] /\
  groupRevenueByPeriod 0 Z.add Fixture.iso_date Fixture.year_month None "week" = [].
Proof. vm_compute. repeat split. Qed.
